(** * EcoScore backend: aggregation, caching and throttling core

    A shallow embedding of the Python sources
    - [utils/cache.py]             (TTL memoizer),
    - [utils/kv.py]                (distributed result cache),
    - [utils/overpass_throttle.py] (paced, hedged Overpass client),
    - [utils/geocode.py]           (memoized location resolution),
    - [api/endpoints.py]           (admission control, scorer, orchestrator,
                                    green-score endpoint),
    together with the properties the specification states about them.

    Conventions.  Python [float]s are IEEE binary64 values, modelled by
    [spec_float] with precision 53 and [emax] 1024.  Clock readings
    ([time.time()]) are modelled as exact rationals.  A Python call that may
    raise returns a [result]; shared mutable objects are threaded explicitly. *)

From Stdlib Require Import ZArith QArith Lia Lqa List String Ascii Permutation Sorted.
From Stdlib Require Import Floats.
From stdpp Require Import base option gmap strings list pretty.

Local Open Scope Z_scope.
Set Warnings "-register-all".

(* ===================================================================== *)
(** * Exceptions and the [result] monad                                   *)
(* ===================================================================== *)

(** The exception classes that the modelled code can raise or observe. *)
Inductive exc : Type :=
| OverflowError
| ValueError
| TypeError
| AttributeError
| UnboundLocalError
| ZeroDivisionError
| TimeoutError
| ConnectionError
| ResponseError
| HTTPException (status : Z) (detail : string)
| OverpassTooManyRequests (msg : string)
| OtherError (msg : string).

Inductive result (A : Type) : Type :=
| Ok (a : A)
| Raise (e : exc).
Arguments Ok {A} a.
Arguments Raise {A} e.

#[global] Instance result_ret : MRet result := fun _ a => Ok a.
#[global] Instance result_bind : MBind result := fun _ _ k r =>
  match r with
  | Ok a => k a
  | Raise e => Raise e
  end.

Definition returns {A} (r : result A) : bool :=
  match r with Ok _ => true | Raise _ => false end.

(* ===================================================================== *)
(** * Python floats                                                       *)
(* ===================================================================== *)

Module PyFloat.

Definition prec : Z := 53.
Definition emax : Z := 1024.
Definition emin : Z := Eval compute in SpecFloat.emin prec emax.

Definition fadd := SFadd prec emax.
Definition fmul := SFmul prec emax.
Definition fdiv := SFdiv prec emax.
Definition flt := SFltb.
Definition fle := SFleb.

(** [float(z)] for a Python [int]: round to nearest even, and
    [OverflowError] when the integer is beyond the largest double. *)
Definition of_int (z : Z) : spec_float := binary_normalize prec emax z 0 false.

Definition float_of_int (z : Z) : result spec_float :=
  match of_int z with
  | S754_infinity _ => Raise OverflowError
  | f => Ok f
  end.

(** The double nearest to the decimal [n / d], for literals such as
    [1.2] = [dec 12 10]: both operands are exact and IEEE division is
    correctly rounded. *)
Definition dec (n d : Z) : spec_float := fdiv (of_int n) (of_int d).

Definition zero : spec_float := S754_zero false.
Definition one : spec_float := Eval compute in of_int 1.
Definition hundred : spec_float := Eval compute in of_int 100.

Definition is_zero (x : spec_float) : bool :=
  match x with S754_zero _ => true | _ => false end.

(** [x / y] on floats raises on a zero divisor. *)
Definition truediv (x y : spec_float) : result spec_float :=
  if is_zero y then Raise ZeroDivisionError else Ok (fdiv x y).

(** The builtins [min(a, b)] and [max(a, b)]: the first argument is kept
    unless the second compares strictly smaller (resp. larger); a NaN
    second argument therefore never wins. *)
Definition min2 (a b : spec_float) : spec_float := if flt b a then b else a.
Definition max2 (a b : spec_float) : spec_float := if flt a b then b else a.

(** [round(x)] with one argument: nearest integer, ties to even. *)
Definition round_half_even_pos (m : positive) (e : Z) : Z :=
  if 0 <=? e then Z.pos m * 2 ^ e
  else
    let d := 2 ^ (- e) in
    let q := Z.pos m / d in
    let r := Z.pos m mod d in
    match 2 * r ?= d with
    | Lt => q
    | Gt => q + 1
    | Eq => if Z.even q then q else q + 1
    end.

Definition round (x : spec_float) : result Z :=
  match x with
  | S754_zero _ => Ok 0
  | S754_finite s m e => Ok (cond_Zopp s (round_half_even_pos m e))
  | S754_infinity _ => Raise OverflowError
  | S754_nan => Raise ValueError
  end.

(** Shapes of floats used in the invariants below. *)
Definition mantissa_ok (x : spec_float) : Prop :=
  match x with
  | S754_finite _ m _ => Z.pos m < 2 ^ prec
  | _ => True
  end.

(** strictly positive: [+inf] or a positive finite number whose exponent
    is not below [emin] *)
Definition positive_float (x : spec_float) : Prop :=
  match x with
  | S754_infinity false => True
  | S754_finite false _ e => emin <= e
  | _ => False
  end.

(** not NaN and not negative *)
Definition nonneg_float (x : spec_float) : Prop :=
  match x with
  | S754_zero _ => True
  | S754_infinity false => True
  | S754_finite false _ _ => True
  | _ => False
  end.

End PyFloat.

(* ===================================================================== *)
(** * Python values                                                       *)
(* ===================================================================== *)

(** The JSON-like values that flow between adapters, orchestrator and
    cache.  A [dict] keeps its insertion order (iteration order matters to
    the floating-point sums of the scorer); all dictionaries of the program
    are keyed by strings. *)
Inductive pyval : Type :=
| VNone
| VBool (b : bool)
| VInt (z : Z)
| VFloat (f : spec_float)
| VStr (s : string)
| VList (l : list pyval)
| VTuple (l : list pyval)
| VDict (d : list (string * pyval)).

Module Py.

Definition dict := list (string * pyval).

(** [d.get(k)] as an option, [k in d], [d.get(k, dflt)] and [d[k] = v]. *)
Fixpoint lookup (d : dict) (k : string) : option pyval :=
  match d with
  | [] => None
  | (k', v) :: d' => if String.eqb k k' then Some v else lookup d' k
  end.

Definition contains (d : dict) (k : string) : bool :=
  match lookup d k with Some _ => true | None => false end.

Definition get_default (d : dict) (k : string) (dflt : pyval) : pyval :=
  match lookup d k with Some v => v | None => dflt end.

Definition get (d : dict) (k : string) : pyval := get_default d k VNone.

Fixpoint set (d : dict) (k : string) (v : pyval) : dict :=
  match d with
  | [] => [(k, v)]
  | (k', v') :: d' =>
      if String.eqb k k' then (k', v) :: d' else (k', v') :: set d' k v
  end.

Definition keys (d : dict) : list string := map fst d.


(** [isinstance(v, (int, float))]; [bool] is a subclass of [int]. *)
Definition is_number (v : pyval) : bool :=
  match v with VBool _ | VInt _ | VFloat _ => true | _ => false end.

(** Truth value of an object, as tested by [if v:] and [not v]. *)
Definition truthy (v : pyval) : bool :=
  match v with
  | VNone => false
  | VBool b => b
  | VInt z => negb (z =? 0)
  | VFloat f => negb (PyFloat.is_zero f)
  | VStr s => negb (String.eqb s "")
  | VList l | VTuple l => match l with [] => false | _ => true end
  | VDict d => match d with [] => false | _ => true end
  end.

(** [float(v)] for a value that passed [isinstance(v, (int, float))]. *)
Definition float_of_number (v : pyval) : result spec_float :=
  match v with
  | VBool b => Ok (if b then PyFloat.one else PyFloat.zero)
  | VInt z => PyFloat.float_of_int z
  | VFloat f => Ok f
  | _ => Raise TypeError
  end.

(** What [json.loads(json.dumps(v))] gives back: tuples come back as
    lists, everything else is unchanged (the default encoder accepts NaN
    and the infinities). *)
Fixpoint json_roundtrip (v : pyval) : pyval :=
  match v with
  | VList l => VList (map json_roundtrip l)
  | VTuple l => VList (map json_roundtrip l)
  | VDict d => VDict (map (fun kv => (fst kv, json_roundtrip (snd kv))) d)
  | _ => v
  end.

End Py.

(* ===================================================================== *)
(** * [api/endpoints.py]: the composite scorer                            *)
(* ===================================================================== *)

Module Scorer.
Import PyFloat.

Definition METRIC_WEIGHTS : list (string * spec_float) :=
  [ ("air_quality",         dec 12 10);
    ("tree_canopy",         dec 8 10);
    ("pavement",            dec 8 10);
    ("traffic",             dec 10 10);
    ("toxic_sites",         dec 11 10);
    ("green_space",         dec 9 10);
    ("sea_level_rise",      dec 9 10);
    ("transit_access",      dec 6 10);
    ("water_availability",  dec 6 10);
    ("riverine_flood_risk", dec 9 10) ]%string.

(** [METRIC_WEIGHTS.get(k, 0.0)] *)
Fixpoint weight_in (ws : list (string * spec_float)) (k : string) : spec_float :=
  match ws with
  | [] => zero
  | (k', w) :: ws' => if String.eqb k k' then w else weight_in ws' k
  end.

Definition weight_of (k : string) : spec_float := weight_in METRIC_WEIGHTS k.

(** [max(0.0, min(100.0, x))] *)
Definition clamp_0_100 (x : spec_float) : spec_float := max2 zero (min2 hundred x).

(** [_extract_score(v)]: a clamped numeric score, or [None] if missing or
    invalid.  [float(s)] raises on an [int] too large for a double. *)
Definition _extract_score (v : pyval) : result (option spec_float) :=
  match v with
  | VDict d =>
      let s := Py.get d "score" in
      if Py.is_number s then
        f ← Py.float_of_number s; Ok (Some (clamp_0_100 f))
      else Ok None
  | _ => Ok None
  end.

(** A metric record "produced a usable numeric score" when
    [_extract_score] finds a number in it; it "counts" for the composite
    when, in addition, its name has a positive configured weight. *)
Definition has_numeric_score (v : pyval) : bool :=
  match v with
  | VDict d => Py.is_number (Py.get d "score")
  | _ => false
  end.

Definition counts (kv : string * pyval) : bool :=
  has_numeric_score (snd kv) && flt zero (weight_of (fst kv)).

(** The first loop of [_geometric_mean_over_scores]: the triples
    [(k, s, w)] of the metrics that carry a numeric score and a positive
    weight, with [s] floored at [1.0]. *)
Fixpoint collect_triples (items : Py.dict)
  : result (list (string * spec_float * spec_float)) :=
  match items with
  | [] => Ok []
  | (k, v) :: rest =>
      s ← _extract_score v;
      let w := weight_of k in
      match s with
      | Some s =>
          if flt zero w then
            triples ← collect_triples rest; Ok ((k, max2 one s, w) :: triples)
          else collect_triples rest
      | None => collect_triples rest
      end
  end.

(** [sum(w for _, _, w in triples)]: the builtin starts from the integer
    [0], whose sum with a float is the float sum with [0.0]; the total is
    the left-to-right sum of the weights (interpreters that compensate
    the rounding error of [sum] differ in the last bits of the total, not
    in its sign). *)
Definition sum_weights (triples : list (string * spec_float * spec_float)) : spec_float :=
  fold_left (fun acc t => fadd acc (snd t)) triples zero.

Section WithLibm.
(** [math.log] and [math.exp] belong to the platform's C library; they
    are parameters of the model and may raise ([ValueError] outside the
    domain of the logarithm, [OverflowError] for a result out of range). *)
Variable math_log : spec_float -> result spec_float.
Variable math_exp : spec_float -> result spec_float.

(** The second loop:
    [acc += (w / total_w) * math.log(s / 100.0)]. *)
Fixpoint accumulate (total_w : spec_float)
    (triples : list (string * spec_float * spec_float)) (acc : spec_float)
  : result spec_float :=
  match triples with
  | [] => Ok acc
  | (_, s, w) :: rest =>
      q ← truediv w total_w;
      r ← truediv s hundred;
      l ← math_log r;
      accumulate total_w rest (fadd acc (fmul q l))
  end.

Definition _geometric_mean_over_scores (scores : Py.dict) : result (option Z) :=
  triples ← collect_triples scores;
  match triples with
  | [] => Ok None
  | _ =>
      let total_w := sum_weights triples in
      if fle total_w zero then Ok None
      else
        acc ← accumulate total_w triples zero;
        e ← math_exp acc;
        let gm := fmul hundred e in
        n ← round (max2 zero (min2 hundred gm));
        Ok (Some n)
  end.

End WithLibm.

(** The part of a C library that is exact in every implementation:
    [log(1.0) = 0.0] and [exp(0.0) = 1.0] (also at [-0.0]).  Used to run
    the scorer on concrete inputs. *)
Definition exact_log (x : spec_float) : result spec_float :=
  if SFeqb x one then Ok zero else Raise (OtherError "log: value not tabulated").
Definition exact_exp (x : spec_float) : result spec_float :=
  if is_zero x then Ok one else Raise (OtherError "exp: value not tabulated").

End Scorer.

(* ===================================================================== *)
(** * Clock readings                                                      *)
(* ===================================================================== *)

(** [time.time()] readings and their differences are exact rationals. *)
Definition Qltb (x y : Q) : bool := negb (Qle_bool y x).

(* ===================================================================== *)
(** * [utils/cache.py]: the TTL memoizer                                  *)
(* ===================================================================== *)

Module Cache.
Section TtlCache.
(** [K] is the type of hashable call keys [(args, frozenset(kwargs.items()))],
    [V] the type of results and [W] the state of whatever the wrapped
    function talks to. *)
Context {K V W : Type} `{Countable K}.

(** The dictionary [cache] captured by the decorator, together with a
    log of the keys on which the wrapped function was actually invoked. *)
Record memo : Type := Memo {
  entries : gmap K (V * Q);
  invoked : list K
}.

Definition empty_memo : memo := Memo ∅ [].

Variable seconds : Z.
Variable fn : K -> W -> result V * W.

(** The tail of [wrapper]: compute, store on success, return. *)
Definition compute_and_store (key : K) (now : Q) (st : memo * W)
  : result V * (memo * W) :=
  let '(m, w) := st in
  let '(r, w') := fn key w in
  match r with
  | Ok v => (Ok v, (Memo (<[key := (v, now)]> (entries m)) (invoked m ++ [key]), w'))
  | Raise e => (Raise e, (Memo (entries m) (invoked m ++ [key]), w'))
  end.

(** The decorated function [wrapper], called on [key] at clock reading
    [now]. *)
Definition wrapper (key : K) (now : Q) (st : memo * W)
  : result V * (memo * W) :=
  match entries (fst st) !! key with
  | Some (val, ts) =>
      if Qltb (now - ts) (inject_Z seconds) then (Ok val, st)
      else compute_and_store key now st
  | None => compute_and_store key now st
  end.

End TtlCache.
Arguments memo K V {_ _}.
End Cache.

(* ===================================================================== *)
(** * [utils/geocode.py]: memoized location resolution                    *)
(* ===================================================================== *)

Module Geocode.

(** The body of [get_coordinates_from_zip] asks Nominatim and reads the
    first hit.  The failures it catches (the request or its JSON decoding
    raising, no hit, [KeyError], [ValueError] or [TypeError] while reading
    the hit) are turned into [None]; any other exception propagates.  The
    service is a parameter: what a lookup of a postal code currently
    ends with. *)
Definition nominatim := string -> result (option (spec_float * spec_float)).

Definition resolve (zip_code : string) (svc : nominatim) : result pyval * nominatim :=
  match svc zip_code with
  | Ok (Some (lat, lon)) => (Ok (VTuple [VFloat lat; VFloat lon]), svc)
  | Ok None => (Ok VNone, svc)
  | Raise e => (Raise e, svc)
  end.

(** [@ttl_cache(seconds=86400)] *)
Definition GEOCODE_TTL : Z := 86400.

Definition get_coordinates_from_zip
    (zip_code : string) (now : Q) (st : Cache.memo string pyval * nominatim)
  : result pyval * (Cache.memo string pyval * nominatim) :=
  Cache.wrapper GEOCODE_TTL resolve zip_code now st.

End Geocode.

(* ===================================================================== *)
(** * [utils/kv.py]: the distributed result cache                         *)
(* ===================================================================== *)

Module Kv.

(** The key-value store behind [redis.Redis]: each key holds a payload and
    the instant at which it expires.  Whether the server can be reached
    is a fact of the moment of each call ([up]). *)
Definition server := gmap string (pyval * Q).

(** [r.get(key)] at server time [now]. *)
Definition redis_get (up : bool) (key : string) (now : Q) (s : server)
  : result (option pyval) :=
  if up then
    match s !! key with
    | Some (v, expiry) => if Qltb now expiry then Ok (Some v) else Ok None
    | None => Ok None
    end
  else Raise ConnectionError.

(** [r.setex(key, ttl, value)]: a non-positive [ttl] is refused by the
    server. *)
Definition redis_setex (up : bool) (key : string) (ttl : Z) (value : pyval) (now : Q)
    (s : server) : result server :=
  if up then
    if ttl <=? 0 then Raise ResponseError
    else Ok (<[key := (value, (now + inject_Z ttl)%Q)]> s)
  else Raise ConnectionError.

Definition DEFAULT_ZIP_CACHE_TTL_SECONDS : Z := 30 * 24 * 3600.
Definition DEFAULT_ZIP_CACHE_PREFIX : string := "greenscore:".

Section WithConfig.
Variable ZIP_CACHE_TTL_SECONDS : Z.
Variable ZIP_CACHE_PREFIX : string.

Definition _key (zip_code : string) : string := (ZIP_CACHE_PREFIX +:+ zip_code)%string.

(** [json.loads(v) if v else None]: the stored text is the JSON form of
    the payload, so what comes back is the payload after one JSON round
    trip (done when it is stored). *)
Definition cache_get_zip (up : bool) (zip_code : string) (now : Q) (s : server)
  : result pyval :=
  v ← redis_get up (_key zip_code) now s;
  match v with
  | Some payload => Ok payload
  | None => Ok VNone
  end.

Definition cache_set_zip (up : bool) (zip_code : string) (payload : pyval) (now : Q)
    (s : server) : result server :=
  redis_setex up (_key zip_code) ZIP_CACHE_TTL_SECONDS (Py.json_roundtrip payload) now s.

End WithConfig.
End Kv.

(* ===================================================================== *)
(** * [api/endpoints.py]: admission control                               *)
(* ===================================================================== *)

Module Admission.
Local Open Scope string_scope.

(** What the endpoint reads from a request. *)
Record request : Type := Request {
  x_forwarded_for : option string;
  if_none_match : option string;
  client_host : option string
}.

(** [str.strip()] on a header value (one character per code point below
    256): the characters for which [str.isspace] holds. *)
Definition is_space (c : ascii) : bool :=
  let n := N_of_ascii c in
  ((9 <=? n) && (n <=? 13) || (28 <=? n) && (n <=? 32) || (n =? 133) || (n =? 160))%N.

Fixpoint lstrip (s : string) : string :=
  match s with
  | String c s' => if is_space c then lstrip s' else s
  | EmptyString => EmptyString
  end.

Fixpoint rstrip (s : string) : string :=
  match s with
  | String c s' =>
      match rstrip s' with
      | EmptyString => if is_space c then EmptyString else String c EmptyString
      | t => String c t
      end
  | EmptyString => EmptyString
  end.

Definition strip (s : string) : string := rstrip (lstrip s).

(** [s.split(",")[0]] *)
Fixpoint before_comma (s : string) : string :=
  match s with
  | String c s' => if Ascii.eqb c "," then EmptyString else String c (before_comma s')
  | EmptyString => EmptyString
  end.

(** The identity used by [green_score]: first entry of the forwarding
    header, else the peer address, else ["unknown"]. *)
Definition client_identity (req : request) : string :=
  let forwarded := strip (before_comma (default "" (x_forwarded_for req))) in
  if negb (String.eqb forwarded "") then forwarded
  else default "unknown" (client_host req).


Definition DEFAULT_RATE_LIMIT_PER_MIN : Z := 30.

(** [_request_log]: per identity, the timestamps of admitted calls. *)
Definition request_log := gmap string (list Q).

(** [[t for t in calls if now - t < 60]] *)
Definition in_window (now : Q) (calls : list Q) : list Q :=
  List.filter (fun t => Qltb (now - t) 60) calls.

Definition too_many_requests : exc :=
  HTTPException 429 "Rate limit exceeded. Try again later.".

(** The sliding-window check, shared verbatim by [rate_limiter] and by
    the head of [green_score].  A denied call leaves the log as it was. *)
Definition check_admission (RATE_LIMIT_PER_MIN : Z) (client_ip : string) (now : Q)
    (log : request_log) : result unit * request_log :=
  let calls := default [] (log !! client_ip) in
  let calls := in_window now calls in
  if (RATE_LIMIT_PER_MIN <=? Z.of_nat (length calls))%Z then (Raise too_many_requests, log)
  else (Ok tt, <[client_ip := (calls ++ [now])%list]> log).


(** A client sending requests at the given instants. *)
Fixpoint replay (limit : Z) (client_ip : string) (times : list Q) (log : request_log)
  : list (result unit) * request_log :=
  match times with
  | [] => ([], log)
  | t :: rest =>
      let '(r, log') := check_admission limit client_ip t log in
      let '(rs, log'') := replay limit client_ip rest log' in
      (r :: rs, log'')
  end.

End Admission.

(* ===================================================================== *)
(** * [utils/trees.py], [utils/pavement.py]: score normalisation          *)
(* ===================================================================== *)

(** Builtins and C-library functions whose results the model does not
    compute: they are parameters, and each may raise. *)
Record platform : Type := Platform {
  math_log : spec_float -> result spec_float;
  math_exp : spec_float -> result spec_float;
  float_pow : spec_float -> spec_float -> result spec_float;  (* [x ** y] *)
  float_of_str : string -> result spec_float;                  (* [float(s)] *)
  round_ndigits : pyval -> Z -> result pyval                   (* [round(v, n)] *)
}.

Module Normalize.
Import PyFloat.
Section WithPlatform.
Variable pf : platform.

(** The builtin [float(v)]. *)
Definition py_float (v : pyval) : result spec_float :=
  match v with
  | VBool _ | VInt _ | VFloat _ => Py.float_of_number v
  | VStr s => float_of_str pf s
  | _ => Raise TypeError
  end.

(** [try: p = float(percentage) except (TypeError, ValueError): return 0] *)
Definition float_or_default (v : pyval) : result (option spec_float) :=
  match py_float v with
  | Ok p => Ok (Some p)
  | Raise TypeError | Raise ValueError => Ok None
  | Raise e => Raise e
  end.

Definition normalize_canopy (percentage : pyval) : result pyval :=
  p ← float_or_default percentage;
  match p with
  | None => Ok (VInt 0)
  | Some p =>
      let p := max2 zero (min2 hundred p) in
      let k := of_int 20 in
      let n := dec 12 10 in
      if SFeqb p zero then Ok (VInt 0)
      else
        pn ← float_pow pf p n;
        pn' ← float_pow pf p n;
        kn ← float_pow pf k n;
        score ← truediv (fmul hundred pn) (fadd pn' kn);
        r ← round score;
        Ok (VInt r)
  end.

Definition normalize_pavement (percentage : pyval) : result pyval :=
  p ← float_or_default percentage;
  match p with
  | None => Ok (VInt 0)
  | Some p =>
      let p := max2 zero (min2 hundred p) in
      let midpoint := of_int 30 in
      let steepness := dec 12 100 in
      e ← math_exp pf (fmul steepness (SFsub prec emax p midpoint));
      x ← truediv one (fadd one e);
      r ← round (fmul hundred x);
      Ok (VInt r)
  end.

End WithPlatform.
End Normalize.

(* ===================================================================== *)
(** * [api/endpoints.py]: the orchestrator                                *)
(* ===================================================================== *)

Module Orchestrator.
Local Open Scope string_scope.

(** The ten source adapters submitted to the thread pool. *)
Inductive adapter : Type :=
| AirNow | LandCover | Traffic | Toxics | GreenSpace | Demographics
| SeaLevel | Transit | Water | FloodRisk.

#[global] Instance adapter_eq_dec : EqDecision adapter.
Proof. solve_decision. Defined.

(** What each submitted call ended with: a returned value, or the
    exception that [Future.result()] re-raises. *)
Definition outcomes := adapter -> result pyval.

Definition with_outcome (a : adapter) (r : result pyval) (outs : outcomes) : outcomes :=
  fun b => if decide (b = a) then r else outs b.

(** The keys each adapter's result is recorded under. *)
Definition metrics_of (a : adapter) : list string :=
  match a with
  | AirNow => ["air_quality"]
  | LandCover => ["tree_canopy"; "pavement"]
  | Traffic => ["traffic"]
  | Toxics => ["toxic_sites"]
  | GreenSpace => ["green_space"]
  | Demographics => ["demographics"]
  | SeaLevel => ["sea_level_rise"]
  | Transit => ["transit_access"]
  | Water => ["water_availability"]
  | FloodRisk => ["riverine_flood_risk"]
  end.

(** [isinstance(r, dict) and "error" not in r] *)
Definition succeeded (r : pyval) : bool :=
  match r with
  | VDict d => negb (Py.contains d "error")
  | _ => false
  end.

(** [r.get("error", msg) if isinstance(r, dict) else msg] *)
Definition error_of (r : pyval) (msg : string) : pyval :=
  match r with
  | VDict d => Py.get_default d "error" (VStr msg)
  | _ => VStr msg
  end.

(** An adapter reports a failure by returning a dictionary with an
    ["error"] key; the blocks other than the air-quality one also treat
    any value that is not a dictionary as a failure. *)
Definition reports_error (r : pyval) : bool :=
  match r with
  | VDict d => Py.contains d "error"
  | _ => false
  end.

Definition failed_result (a : adapter) (r : pyval) : bool :=
  match a with
  | AirNow => reports_error r
  | _ => negb (succeeded r)
  end.

(** An [Err] entry of the metrics map: it has an ["error"] and no
    ["score"]. *)
Definition is_error_entry (v : option pyval) : bool :=
  match v with
  | Some (VDict d) => Py.contains d "error" && negb (Py.contains d "score")
  | _ => false
  end.

(** The blocks that copy an adapter's result unchanged on success. *)
Definition passthrough_entry (r : pyval) (msg : string) : pyval :=
  if succeeded r then r else VDict [("error", error_of r msg)].

(** The scorer can read every entry of the map. *)
Definition extracts (scores : Py.dict) : Prop :=
  Forall (fun kv => returns (Scorer._extract_score (snd kv)) = true) scores.

Definition overall_value (o : option Z) : pyval :=
  match o with Some n => VInt n | None => VNone end.

(** Reading the composite. *)
Definition field (comp : pyval) (k : string) : option pyval :=
  match comp with
  | VDict d => Py.lookup d k
  | _ => None
  end.

Definition metric_of (comp : pyval) (m : string) : option pyval :=
  match field comp "scores" with
  | Some scores => field scores m
  | None => None
  end.

Definition invalid_zip : pyval := VDict [("error", VStr "Invalid ZIP code")].

Section WithPlatform.
Variable pf : platform.

(** Air quality: the failure branch calls [.get] on the result without
    checking that it is a dictionary. *)
Definition air_entry (r : pyval) : result pyval :=
  if succeeded r then
    match r with
    | VDict d =>
        Ok (VDict [("score", Py.get d "score");
                   ("max_aqi", Py.get d "max_aqi");
                   ("primary_pollutant", Py.get d "primary_pollutant");
                   ("observations", Py.get d "observations");
                   ("source", VStr "AirNow")])
    | _ => Raise AttributeError
    end
  else
    match r with
    | VDict d =>
        Ok (VDict [("error", Py.get_default d "error" (VStr "Unknown error"));
                   ("source", VStr "AirNow")])
    | _ => Raise AttributeError
    end.

(** Land cover feeds two metrics. *)
Definition land_entries (r : pyval) : result (pyval * pyval) :=
  if succeeded r then
    match r with
    | VDict d =>
        canopy ← Normalize.normalize_canopy pf (Py.get d "canopy");
        let tree := VDict [("score", canopy);
                           ("percentage", Py.get d "canopy");
                           ("source", Py.get d "source");
                           ("acquired", Py.get d "acquired")] in
        pavement ← Normalize.normalize_pavement pf (Py.get d "pavement");
        Ok (tree, VDict [("score", pavement);
                         ("percentage", Py.get d "pavement");
                         ("source", Py.get d "source");
                         ("acquired", Py.get d "acquired")])
    | _ => Raise AttributeError
    end
  else
    let err_msg := error_of r "Unable to retrieve land cover data" in
    Ok (VDict [("error", err_msg)], VDict [("error", err_msg)]).

Definition traffic_entry (r : pyval) : result pyval :=
  if succeeded r then
    match r with
    | VDict d =>
        len ← round_ndigits pf (Py.get_default d "weighted_length" (VFloat PyFloat.zero)) 2;
        Ok (VDict [("score", Py.get d "score"); ("weighted_road_length", len)])
    | _ => Raise AttributeError
    end
  else Ok (VDict [("error", error_of r "Unable to compute traffic score")]).

(** [compute_green_score] after the coordinates are known: wait for the
    ten futures in the order of the source, then fill [scores]. *)
Definition build_scores (outs : outcomes) : result Py.dict :=
  airnow_result ← outs AirNow;
  land_result ← outs LandCover;
  traffic_result ← outs Traffic;
  toxic_result ← outs Toxics;
  green_space_result ← outs GreenSpace;
  demographics_result ← outs Demographics;
  sea_level_result ← outs SeaLevel;
  transit_result ← outs Transit;
  water_result ← outs Water;
  flood_rtfi_result ← outs FloodRisk;
  air ← air_entry airnow_result;
  let scores := Py.set [] "air_quality" air in
  land ← land_entries land_result;
  let scores := Py.set scores "tree_canopy" (fst land) in
  let scores := Py.set scores "pavement" (snd land) in
  traffic ← traffic_entry traffic_result;
  let scores := Py.set scores "traffic" traffic in
  let scores := Py.set scores "toxic_sites"
    (passthrough_entry toxic_result "Unable to retrieve toxic sites") in
  let scores := Py.set scores "green_space"
    (passthrough_entry green_space_result "Unable to retrieve green space") in
  let scores := Py.set scores "demographics"
    (passthrough_entry demographics_result "Unable to retrieve demographics") in
  let scores := Py.set scores "sea_level_rise"
    (passthrough_entry sea_level_result "Unable to compute sea level rise exposure") in
  let scores := Py.set scores "transit_access"
    (passthrough_entry transit_result "Unable to compute transit access") in
  let scores := Py.set scores "water_availability"
    (passthrough_entry water_result "Unable to compute water availability") in
  let scores := Py.set scores "riverine_flood_risk"
    (passthrough_entry flood_rtfi_result "Unable to compute real‑time flood risk") in
  Ok scores.

(** The metrics map, spelled out: the ten futures returned, the three
    blocks that compute something did not raise, and the map has its
    eleven keys in the order of the source. *)
Definition entries_of (outs : outcomes) (scores : Py.dict) : Prop :=
  exists air land traffic toxic green dem sea transit water flood e_air e_land e_traffic,
    outs AirNow = Ok air /\ outs LandCover = Ok land /\ outs Traffic = Ok traffic /\
    outs Toxics = Ok toxic /\ outs GreenSpace = Ok green /\ outs Demographics = Ok dem /\
    outs SeaLevel = Ok sea /\ outs Transit = Ok transit /\ outs Water = Ok water /\
    outs FloodRisk = Ok flood /\
    air_entry air = Ok e_air /\ land_entries land = Ok e_land /\
    traffic_entry traffic = Ok e_traffic /\
    scores =
      [ ("air_quality", e_air);
        ("tree_canopy", fst e_land);
        ("pavement", snd e_land);
        ("traffic", e_traffic);
        ("toxic_sites", passthrough_entry toxic "Unable to retrieve toxic sites");
        ("green_space", passthrough_entry green "Unable to retrieve green space");
        ("demographics", passthrough_entry dem "Unable to retrieve demographics");
        ("sea_level_rise",
           passthrough_entry sea "Unable to compute sea level rise exposure");
        ("transit_access", passthrough_entry transit "Unable to compute transit access");
        ("water_availability",
           passthrough_entry water "Unable to compute water availability");
        ("riverine_flood_risk",
           passthrough_entry flood "Unable to compute real‑time flood risk") ].

Definition orchestrate (zip : string) (coords : pyval) (outs : outcomes) : result pyval :=
  scores ← build_scores outs;
  overall_score ← Scorer._geometric_mean_over_scores (math_log pf) (math_exp pf) scores;
  Ok (VDict [("zip", VStr zip);
             ("coordinates", coords);
             ("scores", VDict scores);
             ("overall_score", overall_value overall_score)]).

(** The world a request runs in: the geocoding service and what the ten
    adapters would answer for a postal code and its coordinates. *)
Record world : Type := World {
  geocoder : Geocode.nominatim;
  adapters : string -> pyval -> outcomes
}.

(** [compute_green_score(zip)] at clock reading [now], threading the
    geocoder's memo. *)
Definition compute_green_score (w : world) (zip : string) (now : Q)
    (geo : Cache.memo string pyval) : result pyval * Cache.memo string pyval :=
  let '(coords, (geo', _)) := Geocode.get_coordinates_from_zip zip now (geo, geocoder w) in
  match coords with
  | Raise e => (Raise e, geo')
  | Ok coords =>
      if negb (Py.truthy coords) then (Ok invalid_zip, geo')
      else (orchestrate zip coords (adapters w zip coords), geo')
  end.

End WithPlatform.
End Orchestrator.

(* ===================================================================== *)
(** * [api/endpoints.py]: the [/green-score] endpoint                     *)
(* ===================================================================== *)

Module Endpoint.
Import Admission Orchestrator.
Local Open Scope string_scope.

(** Values read from the environment at import time. *)
Record config : Type := Config {
  RATE_LIMIT_PER_MIN : Z;
  ZIP_CACHE_TTL_SECONDS : Z;
  ZIP_CACHE_PREFIX : string
}.

Definition default_config : config :=
  Config DEFAULT_RATE_LIMIT_PER_MIN Kv.DEFAULT_ZIP_CACHE_TTL_SECONDS
         Kv.DEFAULT_ZIP_CACHE_PREFIX.

(** The mutable objects the handler touches: [_request_log], the memo of
    [get_coordinates_from_zip], and the key-value store. *)
Record state : Type := State {
  request_log_of : request_log;
  geocode_memo : Cache.memo string pyval;
  store : Kv.server
}.

(** The circumstances of one request: the clock readings taken while it
    is served and whether the store answers. *)
Record instants : Type := Instants {
  t_admit : Q;       (* [now = time.time()] at the head of [green_score] *)
  t_cache_get : Q;   (* server time of [r.get] *)
  up_cache_get : bool;
  t_geocode : Q;     (* [time.time()] inside the geocoder's wrapper *)
  t_cache_set : Q;   (* server time of [r.setex] *)
  up_cache_set : bool
}.

(** What the handler hands back to the framework: an explicit
    [Response], or a plain dictionary returned as it is. *)
Inductive reply : Type :=
| Response (status_code : Z) (etag : string) (x_cache : string) (content : option pyval)
| Returned (v : pyval).

(** [isinstance(result, dict) and not result.get("error")] *)
Definition error_free (result : pyval) : bool :=
  match result with
  | VDict d => negb (Py.truthy (Py.get d "error"))
  | _ => false
  end.

Section WithPlatform.
Variable cfg : config.
Variable pf : platform.
(** [hashlib.sha256(json.dumps(v, sort_keys=True).encode()).hexdigest()] *)
Variable etag_of : pyval -> string.

(** The request passes the admission check. *)
Definition admitted (req : request) (ts : instants) (st : state) : Prop :=
  fst (check_admission (RATE_LIMIT_PER_MIN cfg) (client_identity req) (t_admit ts)
         (request_log_of st)) = Ok tt.

(** The store has nothing (alive) under the key of [zip]. *)
Definition cache_miss (zip : string) (ts : instants) (st : state) : Prop :=
  Kv.cache_get_zip (ZIP_CACHE_PREFIX cfg) true zip (t_cache_get ts) (store st) = Ok VNone.

Definition green_score (w : world) (ts : instants) (zip : string) (req : request)
    (st : state) : result reply * state :=
  let client_ip := client_identity req in
  let '(admitted, log') :=
    check_admission (RATE_LIMIT_PER_MIN cfg) client_ip (t_admit ts) (request_log_of st) in
  match admitted with
  | Raise e => (Raise e, st)
  | Ok _ =>
      let st1 := State log' (geocode_memo st) (store st) in
      match Kv.cache_get_zip (ZIP_CACHE_PREFIX cfg) (up_cache_get ts) zip (t_cache_get ts)
              (store st) with
      | Raise e => (Raise e, st1)
      | Ok cached =>
          if Py.truthy cached then
            let etag := etag_of cached in
            if decide (if_none_match req = Some etag)
            then (Ok (Response 304 etag "HIT" None), st1)
            else (Ok (Response 200 etag "HIT" (Some cached)), st1)
          else
            let '(result, geo') :=
              compute_green_score pf w zip (t_geocode ts) (geocode_memo st) in
            let st2 := State log' geo' (store st) in
            match result with
            | Raise e => (Raise e, st2)
            | Ok result =>
                if error_free result then
                  match Kv.cache_set_zip (ZIP_CACHE_TTL_SECONDS cfg) (ZIP_CACHE_PREFIX cfg)
                          (up_cache_set ts) zip result (t_cache_set ts) (store st) with
                  | Raise e => (Raise e, st2)
                  | Ok store' =>
                      (Ok (Response 200 (etag_of result) "MISS" (Some result)),
                       State log' geo' store')
                  end
                else (Ok (Returned result), st2)
            end
      end
  end.

End WithPlatform.
End Endpoint.

(* ===================================================================== *)
(** * [utils/overpass_throttle.py]: the paced, hedged client              *)
(* ===================================================================== *)

Module Throttle.
Import PyFloat.
Local Open Scope string_scope.

Definition DEFAULT_MIRRORS : list string :=
  [ "https://overpass.kumi.systems/api/interpreter";
    "https://overpass-api.nextzen.org/api/interpreter";
    "https://z.overpass-api.de/api/interpreter" ].

(** Values read from the environment at import time. *)
Record config : Type := Config {
  OVERPASS_URL : option string;
  _MIN_INTERVAL_S : spec_float;
  _MAX_RETRIES : Z;
  _BACKOFF_START : spec_float;
  _HEDGE_MIRRORS : Z
}.

Definition default_config : config :=
  Config None (dec 12 10) 4 (dec 15 10) 2.

(** The slice [l[:k]]; a negative [k] counts from the end. *)
Definition slice_to {A} (l : list A) (k : Z) : list A :=
  if (0 <=? k)%Z then firstn (Z.to_nat k) l
  else firstn (Z.to_nat (Z.of_nat (length l) + k)) l.

Definition nonempty (s : string) : bool := negb (String.eqb s "").

Definition select_mirrors (cfg : config) : list string :=
  let mirrors :=
    match OVERPASS_URL cfg with
    | Some url => if nonempty url then [url] else DEFAULT_MIRRORS
    | None => DEFAULT_MIRRORS
    end in
  slice_to (List.filter nonempty mirrors) (_HEDGE_MIRRORS cfg).

(** ** The worker threads of one round under the pacing lock

    Every future runs [_paced_call]: take [_lock], sleep out the rest of
    the minimum interval, call the mirror, stamp [_last_call], release.
    The threads of the pool interleave freely; the only synchronisation
    is the lock. *)
Inductive phase : Type :=
| Queued      (* submitted, waiting for [_lock] *)
| Pacing      (* holds [_lock], inside [time.sleep(wait)] *)
| Calling     (* holds [_lock], inside [fn()], the request to the mirror *)
| Finished.   (* left the [with] block *)

#[global] Instance phase_eq_dec : EqDecision phase.
Proof. solve_decision. Defined.

Record pool : Type := Pool {
  workers : list phase;
  lock_holder : option nat
}.

Definition submitted (n : nat) : pool := Pool (replicate n Queued) None.

Inductive step : pool -> pool -> Prop :=
| step_acquire ws i :
    ws !! i = Some Queued ->
    step (Pool ws None) (Pool (<[i := Pacing]> ws) (Some i))
| step_call ws h i :
    ws !! i = Some Pacing ->
    step (Pool ws h) (Pool (<[i := Calling]> ws) h)
| step_release ws h i :
    ws !! i = Some Calling ->
    step (Pool ws h) (Pool (<[i := Finished]> ws) None).

Inductive reachable (n : nat) : pool -> Prop :=
| reach_start : reachable n (submitted n)
| reach_step p p' : reachable n p -> step p p' -> reachable n p'.

(** Two mirror calls overlap in a state when two different workers are
    both inside [fn()]. *)
Definition overlap (p : pool) : Prop :=
  exists i j, i <> j /\ workers p !! i = Some Calling /\ workers p !! j = Some Calling.

(** ** The retry loop *)

(** [time.sleep(d)]: NaN and negative durations are refused, and so are
    durations beyond the range of the C timestamp (about 9.2e9 s). *)
Definition MAX_SLEEP : spec_float := Eval compute in of_int 9223372036.

Definition sleep (d : spec_float) : result unit :=
  match d with
  | S754_nan => Raise ValueError
  | S754_infinity _ => Raise OverflowError
  | S754_zero _ => Ok tt
  | S754_finite true _ _ =>
      if flt d (SFopp MAX_SLEEP) then Raise OverflowError else Raise ValueError
  | S754_finite false _ _ =>
      if flt MAX_SLEEP d then Raise OverflowError else Ok tt
  end.

Definition BACKOFF_FACTOR : spec_float := dec 18 10.
Definition BACKOFF_CAP : spec_float := of_int 12.

(** [backoff = min(backoff * 1.8, 12.0)] *)
Definition next_backoff (backoff : spec_float) : spec_float :=
  min2 (fmul backoff BACKOFF_FACTOR) BACKOFF_CAP.

(** The last statement of the client is
    [raise overpy.exception.OverpassTooManyRequests("Overpass mirrors failed after retries")].
    The class belongs to the overpy package, a dependency that is not part
    of these sources.  The statement ends with an exception either way:
    the instance that carries the message when the class accepts one
    argument, the exception of the call itself when it does not.  An
    [overpy_exception] gives, for a message, the exception the statement
    ends with. *)
Definition overpy_exception : Type := string -> exc.

(** A class that keeps its argument as the message, and one whose
    constructor takes no argument. *)
Definition carries_message : overpy_exception := OverpassTooManyRequests.
Definition rejects_argument : overpy_exception := fun _ => TypeError.

Definition exhausted (exception_class : overpy_exception) : exc :=
  exception_class "Overpass mirrors failed after retries".

Section WithUpstream.
(** [R] is the type of a parsed Overpass result. *)
Context {R : Type}.
Variable exception_class : overpy_exception.

(** How one mirror call ends: with a result, with an exception, or not
    before the 60 s deadline of [as_completed]. *)
Inductive mirror_outcome : Type :=
| Success (r : R)
| Failure (e : exc)
| Late.

Inductive round_result : Type :=
| Got (r : R)
| AllFailed
| TimedOut.

(** The loop over [as_completed(futs, timeout=60)], given the outcomes in
    completion order: finished futures are visited in turn, the first
    success is returned, exceptions are swallowed; when the finished ones
    are used up and some future is still pending, [as_completed] raises. *)
Fixpoint first_success (outs : list mirror_outcome) : option R :=
  match outs with
  | [] => None
  | Success r :: _ => Some r
  | _ :: rest => first_success rest
  end.

Definition is_late (o : mirror_outcome) : bool :=
  match o with Late => true | _ => false end.

Definition run_round (outs : list mirror_outcome) : round_result :=
  match first_success outs with
  | Some r => Got r
  | None => if existsb is_late outs then TimedOut else AllFailed
  end.

Inductive event : Type :=
| Query (attempt : nat) (url : string)
| Sleep (seconds : spec_float).

(** What the mirrors do ([upstream attempt url]) and the order in which
    the futures of an attempt complete. *)
Variable upstream : nat -> string -> mirror_outcome.
Variable completion : nat -> list string -> list string.

Definition outcomes_of (attempt : nat) (mirrors : list string) : list mirror_outcome :=
  map (upstream attempt) (completion attempt mirrors).

(** Every future of attempt [a] completed with an exception. *)
Definition round_fails (mirrors : list string) (a : nat) : Prop :=
  run_round (outcomes_of a mirrors) = AllFailed.

(** The body of [for attempt in range(1, _MAX_RETRIES + 1)], for the
    [remaining] attempts starting at number [attempt]. *)
Fixpoint attempts (mirrors : list string) (remaining : nat) (attempt : nat)
    (backoff : spec_float) (trace : list event) : result R * list event :=
  match remaining with
  | O => (Raise (exhausted exception_class), trace)
  | S remaining' =>
      match mirrors with
      | [] => (Raise ValueError, trace)   (* [ThreadPoolExecutor(max_workers=0)] *)
      | _ =>
          let trace := (trace ++ map (Query attempt) mirrors)%list in
          match run_round (outcomes_of attempt mirrors) with
          | Got r => (Ok r, trace)
          | TimedOut => (Raise TimeoutError, trace)
          | AllFailed =>
              match sleep backoff with
              | Raise e => (Raise e, trace)
              | Ok _ =>
                  attempts mirrors remaining' (S attempt) (next_backoff backoff)
                           (trace ++ [Sleep backoff])%list
              end
          end
      end
  end.

Definition hedged_paced_query (cfg : config) : result R * list event :=
  attempts (select_mirrors cfg) (Z.to_nat (_MAX_RETRIES cfg)) 1 (_BACKOFF_START cfg) [].

End WithUpstream.

Definition sleeps (trace : list event) : list spec_float :=
  omap (fun ev => match ev with Sleep d => Some d | Query _ _ => None end) trace.

Definition queries (trace : list event) : list (nat * string) :=
  omap (fun ev => match ev with Query a u => Some (a, u) | Sleep _ => None end) trace.

(** The schedule in the words of the specification: start at the base,
    multiply by a constant factor after each retry, cap at a maximum. *)
Fixpoint backoff_schedule (base : spec_float) (retries : nat) : list spec_float :=
  match retries with
  | O => []
  | S n => base :: backoff_schedule (min2 (fmul base BACKOFF_FACTOR) BACKOFF_CAP) n
  end.

(** The events of [n] rounds in which every mirror failed, from attempt
    number [attempt] on. *)
Fixpoint failed_rounds (mirrors : list string) (n attempt : nat) (backoff : spec_float)
  : list event :=
  match n with
  | O => []
  | S n' =>
      (map (Query attempt) mirrors ++ [Sleep backoff]
       ++ failed_rounds mirrors n' (S attempt) (next_backoff backoff))%list
  end.

(** Two mirrors that are both down, answering in submission order. *)
Definition both_down : nat -> string -> @mirror_outcome unit :=
  fun _ _ => Failure ConnectionError.

(** Two mirrors that fail slowly: the call to the first ends with an
    exception, the call to the second, which had to wait for the lock, is
    still running when [as_completed] gives up. *)
Definition slow_failures : nat -> string -> @mirror_outcome unit :=
  fun _ url =>
    if String.eqb url "https://overpass.kumi.systems/api/interpreter"
    then Failure ConnectionError else Late.

Definition in_order : nat -> list string -> list string := fun _ urls => urls.

End Throttle.

(* ===================================================================== *)
(** * Concrete scenarios                                                  *)
(* ===================================================================== *)

(** Inputs on which the model is run in the examples below. *)
Module Scenario.
Import PyFloat Orchestrator Endpoint.
Local Open Scope string_scope.

(** A platform whose functions never raise.  Its logarithm and
    exponential are the constant functions that agree with the C library
    at [log(1.0)] and [exp(0.0)]. *)
Definition flat_platform : platform :=
  Platform (fun _ => Ok zero) (fun _ => Ok one) (fun x _ => Ok x)
           (fun _ => Raise ValueError) (fun v _ => Ok v).

(** The part of a C library that is exact everywhere it is defined. *)
Definition exact_platform : platform :=
  Platform Scorer.exact_log Scorer.exact_exp
           (fun _ _ => Raise (OtherError "pow: value not tabulated"))
           (fun _ => Raise ValueError) (fun v _ => Ok v).

Definition plain_etag (v : pyval) : string :=
  match v with
  | VDict d => String.concat "," (Py.keys d)
  | _ => ""
  end.

Definition houston : pyval := VTuple [VFloat (dec 2976 100); VFloat (SFopp (dec 9536 100))].

(** The answer of an adapter whose upstream is down, and of one that
    found a perfect score. *)
Definition down : pyval := VDict [("error", VStr "upstream unavailable")].
Definition perfect : pyval := VDict [("score", VInt 100); ("source", VStr "test")].

Definition all_down : outcomes := fun _ => Ok down.

(** The transit adapter dies with an exception; every other adapter
    answers. *)
Definition transit_crashes : outcomes :=
  with_outcome Transit (Raise UnboundLocalError) (fun _ => Ok perfect).

Definition transit_reports_error : outcomes :=
  with_outcome Transit (Ok down) (fun _ => Ok perfect).

(** A geocoder that knows one postal code. *)
Definition knows_77002 : Geocode.nominatim :=
  fun zip => if String.eqb zip "77002"
             then Ok (Some (dec 2976 100, SFopp (dec 9536 100))) else Ok None.

Definition knows_nothing : Geocode.nominatim := fun _ => Ok None.

Definition dark_world : world := World knows_77002 (fun _ _ => all_down).
Definition empty_world : world := World knows_nothing (fun _ _ => all_down).

(** A metrics map whose only numeric score belongs to a metric without
    a configured weight. *)
Definition demographics_only : Py.dict :=
  [("demographics", VDict [("score", VInt 50)])].

(** A counter that returns how often it was called: the memoized value
    survives within the hour and is replaced after it. *)
Definition tick (_ : string) (n : nat) : result nat * nat := (Ok n, S n).

Definition fresh : state := State ∅ Cache.empty_memo ∅.

Definition browser : Admission.request :=
  Admission.Request None None (Some "203.0.113.7").

(** A request served at second 1000, the store reachable. *)
Definition at_1000 : instants := Instants 1000 1000 true 1000 1001 true.
(** The same instant with the store unreachable. *)
Definition at_1000_store_down : instants := Instants 1000 1000 false 1000 1001 false.
(** A later request, one hundred seconds on. *)
Definition at_1100 : instants := Instants 1100 1100 true 1100 1101 true.

End Scenario.


(* ===================================================================== *)
(** * Part two: the rest of the modules, the adapters, the callers        *)
(* ===================================================================== *)

(** Further definitions, from
    - [utils/geocode.py]    (the body of the geocoder),
    - [api/endpoints.py]    (the single-metric endpoints),
    - [utils/transit.py], [utils/water.py], [utils/sea_level.py],
      [utils/flood_risk.py], [utils/airnow.py] (adapters and their scores),
    - [main.py]             (the expiration listener),
    and drivers that run the memoizer and the admission check over
    sequences of calls.  Their properties come after those of part one. *)

(* ===================================================================== *)
(** * Runs: sequences of calls                                            *)
(* ===================================================================== *)

Module CacheRuns.
Import Cache.
Section TtlCache.
Context {K V W : Type} `{Countable K}.
Variable seconds : Z.
Variable fn : K -> W -> result V * W.

(** The decorated function called on each [(key, clock reading)] in
    turn. *)
Fixpoint calls (cs : list (K * Q)) (st : memo K V * W) : list (result V) * (memo K V * W) :=
  match cs with
  | [] => ([], st)
  | (key, now) :: rest =>
      let '(r, st') := wrapper seconds fn key now st in
      let '(rs, st'') := calls rest st' in
      (r :: rs, st'')
  end.

End TtlCache.
End CacheRuns.

Module AdmissionRuns.
Import Admission.


End AdmissionRuns.

(* ===================================================================== *)
(** * More of Python: subscripts, iteration, unpacking                    *)
(* ===================================================================== *)

Module PyMore.
Local Open Scope string_scope.

(** [KeyError] and [IndexError], which [exc] has no constructor for. *)
Definition KeyError : exc := OtherError "KeyError".
Definition IndexError : exc := OtherError "IndexError".

(** [v[0]] *)
Definition getitem0 (v : pyval) : result pyval :=
  match v with
  | VList (x :: _) | VTuple (x :: _) => Ok x
  | VList [] | VTuple [] => Raise IndexError
  | VStr (String c _) => Ok (VStr (String c EmptyString))
  | VStr EmptyString => Raise IndexError
  | VDict _ => Raise KeyError        (* the keys are strings, [0] is none of them *)
  | _ => Raise TypeError
  end.

(** [v[k]] for a string [k] *)
Definition getitem (v : pyval) (k : string) : result pyval :=
  match v with
  | VDict d =>
      match Py.lookup d k with
      | Some x => Ok x
      | None => Raise KeyError
      end
  | _ => Raise TypeError
  end.

(** [v.get(k)] and [v.get(k, dflt)]: only a dictionary has the method. *)
Definition dot_get (v : pyval) (k : string) : result pyval :=
  match v with
  | VDict d => Ok (Py.get d k)
  | _ => Raise AttributeError
  end.

Definition dot_get_default (v : pyval) (k : string) (dflt : pyval) : result pyval :=
  match v with
  | VDict d => Ok (Py.get_default d k dflt)
  | _ => Raise AttributeError
  end.

(** [for x in v]: the items a loop over [v] visits. *)
Definition iterate (v : pyval) : result (list pyval) :=
  match v with
  | VList l | VTuple l => Ok l
  | VDict d => Ok (map VStr (Py.keys d))
  | VStr s => Ok (map (fun c => VStr (String c EmptyString)) (list_ascii_of_string s))
  | _ => Raise TypeError
  end.

(** [a, b = v] *)
Definition unpack2 (v : pyval) : result (pyval * pyval) :=
  x ← iterate v;
  match x with
  | [a; b] => Ok (a, b)
  | _ => Raise ValueError
  end.

(** [v == s] for a string [s] *)
Definition eq_str (v : pyval) (s : string) : bool :=
  match v with
  | VStr s' => String.eqb s' s
  | _ => false
  end.

(** [{**base, **extra}]: the keys of [extra] are added in their order, a
    key that is already there keeps its place and takes the new value. *)
Definition merge (base extra : Py.dict) : Py.dict :=
  fold_left (fun d kv => Py.set d (fst kv) (snd kv)) extra base.

End PyMore.

(* ===================================================================== *)
(** * [utils/geocode.py]: the body of [get_coordinates_from_zip]          *)
(* ===================================================================== *)

Module GeocodeBody.
Import PyMore.
Local Open Scope string_scope.

(** What [requests.get(...)] and [res.json()] end with.  The status of
    the response is not looked at. *)
Inductive reply : Type :=
| RequestFailed        (* [requests.get] raised *)
| NotJson              (* [res.json()] raised *)
| Json (data : pyval).

Section WithPlatform.
Variable pf : platform.

(** [lat = float(data[0]["lat"]); lon = float(data[0]["lon"]); return lat, lon] *)
Definition read_first_hit (data : pyval) : result pyval :=
  hit ← getitem0 data;
  lat_v ← getitem hit "lat";
  lat ← Normalize.py_float pf lat_v;
  hit' ← getitem0 data;
  lon_v ← getitem hit' "lon";
  lon ← Normalize.py_float pf lon_v;
  Ok (VTuple [VFloat lat; VFloat lon]).

(** [except (KeyError, ValueError, TypeError)] *)
Definition caught (e : exc) : bool :=
  match e with
  | ValueError | TypeError => true
  | OtherError msg => String.eqb msg "KeyError"
  | _ => false
  end.

Definition body (r : reply) : result pyval :=
  match r with
  | RequestFailed | NotJson => Ok VNone
  | Json data =>
      if Py.truthy data then
        match read_first_hit data with
        | Ok coords => Ok coords
        | Raise e => if caught e then Ok VNone else Raise e
        end
      else Ok VNone
  end.


End WithPlatform.
End GeocodeBody.

(* ===================================================================== *)
(** * [api/endpoints.py]: the single-metric endpoints                     *)
(* ===================================================================== *)

Module Details.
Import PyMore Orchestrator.
Local Open Scope string_scope.

(** [{"zip": zip, "coordinates": coords, **result}] *)
Definition respond (zip : string) (coords found : pyval) : result pyval :=
  match found with
  | VDict d => Ok (VDict (merge [("zip", VStr zip); ("coordinates", coords)] d))
  | _ => Raise TypeError
  end.

(** The common body of [sea_level], [transit_access], [water] and
    [flood_risk_endpoint]; [which] is the adapter the endpoint calls. *)
Definition detail (which : adapter) (w : world) (zip : string) (now : Q)
    (geo : Cache.memo string pyval) : result pyval * Cache.memo string pyval :=
  let '(coords, (geo', _)) := Geocode.get_coordinates_from_zip zip now (geo, geocoder w) in
  match coords with
  | Raise e => (Raise e, geo')
  | Ok coords =>
      if negb (Py.truthy coords) then (Ok invalid_zip, geo')
      else
        (latlon ← unpack2 coords;
         found ← adapters w zip coords which;
         respond zip coords found, geo')
  end.

Definition sea_level := detail SeaLevel.
Definition transit_access := detail Transit.
Definition water := detail Water.
Definition flood_risk_endpoint := detail FloodRisk.

End Details.

(* ===================================================================== *)
(** * [utils/transit.py], [utils/water.py]: the Overpass adapters         *)
(* ===================================================================== *)

(** What an HTTP request of [requests] ends with: an exception, or a
    response with its status, its text and what [response.json()] gives. *)
Module Http.

Inductive reply : Type :=
| Raised (e : exc)
| Answered (status_code : Z) (text : string) (json : result pyval).

End Http.

Module Overpass.
Import PyFloat PyMore.
Local Open Scope string_scope.
Local Open Scope Z_scope.

(** The lengths of [result.nodes], [result.ways] and [result.relations]
    of an [overpy.Result]. *)
Record overpy_result : Type := OverpyResult {
  nodes : Z;
  ways : Z;
  relations : Z
}.

(** The surroundings of one call: whether [overpy] could be imported,
    the helper [paced_query] ([None] when its import failed, otherwise
    what [paced_query(query)] ends with), what a POST to each endpoint
    ends with, and [str(exc)]. *)
Record env : Type := Env {
  _OVERPY_AVAILABLE : bool;
  paced_query : option (result overpy_result);
  post : string -> Http.reply;
  str_of_exc : exc -> string
}.

Definition overpass_urls : list string :=
  [ "https://overpass.kumi.systems/api/interpreter";
    "https://z.overpass-api.de/api/interpreter";
    "https://overpass-api.de/api/interpreter" ].

(** The loop over [overpass_urls]: [response] is what the last request
    left, and the first answer with status 200 ends the loop. *)
Fixpoint try_urls (post : string -> Http.reply) (urls : list string)
    (response : option (Z * result pyval)) : option (Z * result pyval) :=
  match urls with
  | [] => response
  | url :: rest =>
      match post url with
      | Http.Answered status _ json =>
          if status =? 200 then Some (status, json)
          else try_urls post rest (Some (status, json))
      | Http.Raised _ => try_urls post rest None
      end
  end.



(** [math.pi] *)
Definition math_pi : spec_float := S754_finite false 7074237752028440 (-51).

(** The number of elements of the response for which [wanted] holds of
    [element.get("type")]. *)
Fixpoint count_elements (wanted : pyval -> bool) (elements : list pyval) (count : Z)
  : result Z :=
  match elements with
  | [] => Ok count
  | element :: rest =>
      t ← dot_get element "type";
      count_elements wanted rest (if wanted t then count + 1 else count)
  end.

Definition failed (message : string) : pyval := VDict [("error", VStr message)].

Section WithPlatform.
Variable pf : platform.

(** [0] for a count of zero, else
    [int(round(100.0 * (1.0 - math.exp(-alpha * density))))] with
    [density = count / (math.pi * (radius_m / 1000.0) ** 2)]. *)
Definition density_score (alpha : spec_float) (count radius_m : Z) : result Z :=
  if count =? 0 then Ok 0
  else
    r ← float_of_int radius_m;
    km ← truediv r (of_int 1000);
    sq ← float_pow pf km (of_int 2);
    let area_km2 := fmul math_pi sq in
    c ← float_of_int count;
    density ← truediv c area_km2;
    e ← math_exp pf (fmul (SFopp alpha) density);
    round (fmul hundred (SFsub prec emax one e)).

(** The fallback branch up to the count of the elements: [Ok (inl d)] is
    an early [return d]. *)
Definition fallback_count (ev : env) (wanted : pyval -> bool) : result (pyval + Z) :=
  match try_urls (post ev) overpass_urls None with
  | None => Ok (inl (failed "Overpass query failed or no suitable endpoint responded"))
  | Some (status, json) =>
      if negb (status =? 200)
      then Ok (inl (failed "Overpass query failed or no suitable endpoint responded"))
      else
        match json with
        | Raise exc =>
            Ok (inl (failed ("Failed to parse Overpass response: " ++ str_of_exc ev exc)))
        | Ok data =>
            elements ← dot_get_default data "elements" (VList []);
            items ← iterate elements;
            count ← count_elements wanted items 0;
            Ok (inr count)
        end
  end.

(** [get_transit_access_score(lat, lon, radius_m)], without its
    decorator.  In the branch that uses [paced_query], [score] is never
    assigned, and the [return] statement reads it. *)
Definition get_transit_access_score (ev : env) (radius_m : Z) : result pyval :=
  if _OVERPY_AVAILABLE ev && bool_decide (is_Some (paced_query ev)) then
    match paced_query ev with
    | Some (Raise exc) => Ok (failed ("Overpass query failed: " ++ str_of_exc ev exc))
    | _ => Raise UnboundLocalError
    end
  else
    c ← fallback_count ev (fun t => eq_str t "node");
    match c with
    | inl early => Ok early
    | inr stops_count =>
        score ← density_score (dec 22 100) stops_count radius_m;
        Ok (VDict [("score", VInt score);
                   ("stops_count", VInt stops_count);
                   ("source", VStr "OSM via Overpass API")])
    end.


End WithPlatform.
End Overpass.

(* ===================================================================== *)
(** * [utils/sea_level.py]                                                *)
(* ===================================================================== *)

Module SeaLevel.
Import PyFloat PyMore.
Local Open Scope string_scope.
Local Open Scope Z_scope.




Section WithPlatform.
Variable pf : platform.
(** What the request for each scenario ends with. *)
Variable query : Z -> Http.reply.




End WithPlatform.
End SeaLevel.

(* ===================================================================== *)
(** * [utils/flood_risk.py]                                               *)
(* ===================================================================== *)

Module FloodRisk.
Import PyFloat PyMore.
Local Open Scope string_scope.
Local Open Scope Z_scope.





Section WithPlatform.
Variable pf : platform.
(** [_haversine_distance]: trigonometry of the C library. *)
Variable haversine : spec_float -> spec_float -> spec_float -> spec_float -> result spec_float.
Variable str_of_exc : exc -> string.





End WithPlatform.
End FloodRisk.

(* ===================================================================== *)
(** * [utils/airnow.py]: the score of an AQI                              *)
(* ===================================================================== *)

Module AirNow.
Import PyFloat.
Local Open Scope Z_scope.

Section WithPlatform.
Variable pf : platform.

(** The segment [hi - ((x - lo) / width) * drop], rounded. *)
Definition segment (hi : Z) (x : spec_float) (lo width drop : Z) : result Z :=
  round (SFsub prec emax (of_int hi)
           (fmul (fdiv (SFsub prec emax x (of_int lo)) (of_int width)) (of_int drop))).

Definition _compute_score_from_aqi (aqi : pyval) : result Z :=
  x ← Normalize.float_or_default pf aqi;
  match x with
  | None => Ok 0
  | Some x =>
      if fle x zero then Ok 100
      else if fle x (of_int 50) then
        round (SFsub prec emax (of_int 100) (fmul (fdiv x (of_int 50)) (of_int 15)))
      else if fle x (of_int 100) then segment 85 x 50 50 15
      else if fle x (of_int 150) then segment 70 x 100 50 20
      else if fle x (of_int 200) then segment 50 x 150 50 20
      else if fle x (of_int 300) then segment 30 x 200 100 20
      else if fle x (of_int 500) then segment 10 x 300 200 10
      else Ok 0
  end.

End WithPlatform.
End AirNow.

(* ===================================================================== *)
(** * [main.py]: re-warming expired keys                                  *)
(* ===================================================================== *)

Module Rewarm.
Import Orchestrator Endpoint.

(** [key[n:]] *)
Fixpoint drop (n : nat) (s : string) : string :=
  match n, s with
  | O, _ => s
  | S n', String _ s' => drop n' s'
  | S _, EmptyString => EmptyString
  end.

Section WithPlatform.
Variable cfg : config.
Variable pf : platform.

(** [data = compute_green_score(zip_code)], then [cache_set_zip] if the
    result is a dictionary without a truthy ["error"]. *)
Definition rewarm (w : world) (zip_code : string) (t_geocode t_cache_set : Q) (up : bool)
    (st : Cache.memo string pyval * Kv.server)
  : result unit * (Cache.memo string pyval * Kv.server) :=
  let '(data, geo') := compute_green_score pf w zip_code t_geocode (fst st) in
  match data with
  | Raise e => (Raise e, (geo', snd st))
  | Ok data =>
      if error_free data then
        match Kv.cache_set_zip (ZIP_CACHE_TTL_SECONDS cfg) (ZIP_CACHE_PREFIX cfg) up
                zip_code data t_cache_set (snd st) with
        | Ok store' => (Ok tt, (geo', store'))
        | Raise e => (Raise e, (geo', snd st))
        end
      else (Ok tt, (geo', snd st))
  end.

(** The body of the loop over [pubsub.listen()] in
    [_expiration_worker_blocking], for a message whose ["data"] is [key]
    (decoded, if it came as bytes). *)
Definition on_expired (w : world) (key : pyval) (t_geocode t_cache_set : Q) (up : bool)
    (st : Cache.memo string pyval * Kv.server)
  : result unit * (Cache.memo string pyval * Kv.server) :=
  match key with
  | VStr key =>
      if String.prefix (ZIP_CACHE_PREFIX cfg) key then
        let zip_code := drop (String.length (ZIP_CACHE_PREFIX cfg)) key in
        rewarm w zip_code t_geocode t_cache_set up st
      else (Ok tt, st)
  | _ => (Ok tt, st)
  end.

End WithPlatform.
End Rewarm.

(* ===================================================================== *)
(** * More concrete scenarios                                             *)
(* ===================================================================== *)

Module Cases.
Local Open Scope string_scope.


(** The composite of the dark world (every adapter down) for Houston. *)
Definition dark_composite : pyval :=
  Eval vm_compute in
    match Orchestrator.orchestrate Scenario.flat_platform "77002" Scenario.houston
            Scenario.all_down with
    | Ok comp => comp
    | Raise _ => VNone
    end.






(** No [paced_query]; the first endpoint is down, the second answers
    with an empty list of elements. *)
Definition second_endpoint_answers : Overpass.env :=
  Overpass.Env false None
    (fun url =>
       if String.eqb url "https://z.overpass-api.de/api/interpreter"
       then Http.Answered 200 "" (Ok (VDict [("elements", VList [])]))
       else Http.Raised ConnectionError)
    (fun _ => "connection refused").

End Cases.


(** [lia] is asked to reason about [/] and [mod] as well. *)
Ltac Zify.zify_post_hook ::= Z.to_euclidean_division_equations.

(* ===================================================================== *)
(** * Facts about the [result] monad                                      *)
(* ===================================================================== *)

Lemma bind_Ok_inv {A B} (r : result A) (k : A -> result B) b :
  (r ≫= k) = Ok b -> exists a, r = Ok a /\ k a = Ok b.
Proof. destruct r as [a|e]; simpl; [eauto | discriminate]. Qed.

Lemma bind_Ok {A B} (r : result A) (k : A -> result B) a :
  r = Ok a -> (r ≫= k) = k a.
Proof. intros ->. reflexivity. Qed.

Lemma bind_Raise {A B} (r : result A) (k : A -> result B) e :
  r = Raise e -> (r ≫= k) = Raise e.
Proof. intros ->. reflexivity. Qed.

(* ===================================================================== *)
(** * Binary64 rounding: what every rounded result looks like             *)
(* ===================================================================== *)

Module PyFloatFacts.
Import PyFloat.

Lemma digits2_pos_bounds (p : positive) :
  2 ^ (Z.pos (digits2_pos p) - 1) <= Z.pos p < 2 ^ Z.pos (digits2_pos p).
Proof.
  induction p as [p IH|p IH|]; cbn [digits2_pos].
  - rewrite Pos2Z.inj_succ.
    replace (Z.succ (Z.pos (digits2_pos p)) - 1) with (Z.succ (Z.pos (digits2_pos p) - 1)) by lia.
    rewrite !Z.pow_succ_r by lia. lia.
  - rewrite Pos2Z.inj_succ.
    replace (Z.succ (Z.pos (digits2_pos p)) - 1) with (Z.succ (Z.pos (digits2_pos p) - 1)) by lia.
    rewrite !Z.pow_succ_r by lia. lia.
  - cbn. lia.
Qed.

Lemma shr_m_of_loc m l : shr_m (shr_record_of_loc m l) = m.
Proof. destruct l as [|[]]; reflexivity. Qed.

Lemma shr_m_shr_1 r : 0 <= shr_m r -> shr_m (shr_1 r) = shr_m r / 2.
Proof.
  destruct r as [m b s]; cbn [shr_m shr_1]. intros Hm.
  destruct m as [|[p|p|]|p]; cbn [shr_m]; lia.
Qed.

Lemma shr_m_iter p : forall r,
  0 <= shr_m r -> shr_m (SpecFloat.iter_pos shr_1 p r) = shr_m r / 2 ^ Z.pos p.
Proof.
  assert (Hdiv : forall a b, 0 <= a -> 0 < b -> 0 <= a / b)
    by (intros; apply Z.div_pos; lia).
  induction p as [p IH|p IH|]; intros r Hr; cbn [SpecFloat.iter_pos].
  - assert (H2 : 0 < 2 ^ Z.pos p) by (apply Z.pow_pos_nonneg; lia).
    rewrite IH, IH, shr_m_shr_1 by
      (rewrite ?IH, ?shr_m_shr_1 by (rewrite ?shr_m_shr_1 by lia; auto with zarith);
       auto with zarith).
    rewrite !Z.div_div by lia.
    f_equal. rewrite (Pos2Z.inj_xI p).
    replace (2 * Z.pos p + 1) with (1 + Z.pos p + Z.pos p) by lia.
    rewrite !Z.pow_add_r by lia. lia.
  - assert (H2 : 0 < 2 ^ Z.pos p) by (apply Z.pow_pos_nonneg; lia).
    rewrite IH, IH by (rewrite ?IH by lia; auto with zarith).
    rewrite !Z.div_div by lia.
    f_equal. rewrite (Pos2Z.inj_xO p).
    replace (2 * Z.pos p) with (Z.pos p + Z.pos p) by lia.
    rewrite !Z.pow_add_r by lia. lia.
  - rewrite shr_m_shr_1 by lia. reflexivity.
Qed.

Lemma Zdigits2_bounds m :
  0 < m -> 2 ^ (Zdigits2 m - 1) <= m < 2 ^ Zdigits2 m.
Proof.
  destruct m as [|p|p]; try lia. intros _. apply digits2_pos_bounds.
Qed.

(** After the shift prescribed by [fexp], a non-negative mantissa fits
    in [prec] bits. *)
Lemma shr_fexp_bound m e l :
  0 <= m ->
  0 <= shr_m (fst (shr_fexp prec emax m e l)) < 2 ^ prec.
Proof.
  intros Hm. unfold shr_fexp, shr.
  set (n := fexp prec emax (Zdigits2 m + e) - e).
  assert (Hn : Zdigits2 m - prec <= n) by (unfold n, fexp; lia).
  assert (Hd : 0 <= Zdigits2 m) by (destruct m; cbn; lia).
  assert (Hlt : m < 2 ^ Zdigits2 m).
  { destruct (Z.eq_dec m 0) as [->|]; [cbn; lia|].
    apply Zdigits2_bounds; lia. }
  destruct n as [|p|p] eqn:En; cbn [fst]; rewrite ?shr_m_iter, shr_m_of_loc
    by (rewrite shr_m_of_loc; lia).
  - split; [lia|]. eapply Z.lt_le_trans; [exact Hlt|].
    apply Z.pow_le_mono_r; unfold prec in *; lia.
  - assert (H2 : 0 < 2 ^ Z.pos p) by (apply Z.pow_pos_nonneg; lia).
    split; [apply Z.div_pos; lia|].
    apply Z.div_lt_upper_bound; [lia|].
    rewrite <- Z.pow_add_r by (unfold prec; lia).
    eapply Z.lt_le_trans; [exact Hlt|].
    apply Z.pow_le_mono_r; unfold prec in *; lia.
  - split; [lia|]. eapply Z.lt_le_trans; [exact Hlt|].
    apply Z.pow_le_mono_r; unfold prec in *; lia.
Qed.

(** With an exponent not below [emin] nothing is shifted out entirely. *)
Lemma shr_fexp_pos m e l :
  0 < m -> emin <= e ->
  0 < shr_m (fst (shr_fexp prec emax m e l)) /\
  emin <= snd (shr_fexp prec emax m e l).
Proof.
  intros Hm He. unfold shr_fexp, shr.
  set (n := fexp prec emax (Zdigits2 m + e) - e).
  assert (Hn : n <= 0 \/ n = Zdigits2 m - prec).
  { unfold n, fexp. change (SpecFloat.emin prec emax) with emin. lia. }
  pose proof (Zdigits2_bounds m Hm) as [Hlo _].
  destruct n as [|p|p] eqn:En; cbn [fst snd]; rewrite ?shr_m_iter, shr_m_of_loc
    by (rewrite shr_m_of_loc; lia); try (split; lia).
  destruct Hn as [Hn|Hn]; [lia|].
  split; [|lia].
  apply Z.div_str_pos. split; [apply Z.pow_pos_nonneg; lia|].
  eapply Z.le_trans; [|exact Hlo].
  apply Z.pow_le_mono_r; unfold prec in *; lia.
Qed.

Lemma round_nearest_even_bounds m l :
  m <= round_nearest_even m l <= m + 1.
Proof. destruct l as [|[]]; cbn; try lia. destruct (Z.even m); lia. Qed.

(** Every value produced by the rounding step is a zero, an infinity or
    a finite number of the requested sign with at most [prec] mantissa
    bits: never a NaN. *)
Lemma binary_round_aux_shape s m e l :
  0 <= m ->
  match binary_round_aux prec emax s m e l with
  | S754_zero s' | S754_infinity s' => s' = s
  | S754_finite s' m' _ => s' = s /\ Z.pos m' < 2 ^ prec
  | S754_nan => False
  end.
Proof.
  intros Hm. unfold binary_round_aux.
  pose proof (shr_fexp_bound m e l Hm) as H1.
  destruct (shr_fexp prec emax m e l) as [r1 e1]; cbn [fst] in H1.
  pose proof (round_nearest_even_bounds (shr_m r1) (loc_of_shr_record r1)) as Hr.
  set (m1 := round_nearest_even (shr_m r1) (loc_of_shr_record r1)) in *.
  pose proof (shr_fexp_bound m1 e1 loc_Exact ltac:(lia)) as H2.
  destruct (shr_fexp prec emax m1 e1 loc_Exact) as [r2 e2]; cbn [fst] in H2.
  destruct (shr_m r2) as [|p|p]; try lia; auto.
  destruct (e2 <=? emax - prec); split; auto; lia.
Qed.

Lemma binary_round_aux_positive m e l :
  0 < m -> emin <= e ->
  positive_float (binary_round_aux prec emax false m e l).
Proof.
  intros Hm He. unfold binary_round_aux.
  pose proof (shr_fexp_pos m e l Hm He) as H1.
  destruct (shr_fexp prec emax m e l) as [r1 e1]; cbn [fst snd] in H1.
  pose proof (round_nearest_even_bounds (shr_m r1) (loc_of_shr_record r1)) as Hr.
  set (m1 := round_nearest_even (shr_m r1) (loc_of_shr_record r1)) in *.
  pose proof (shr_fexp_pos m1 e1 loc_Exact ltac:(lia) ltac:(lia)) as H2.
  destruct (shr_fexp prec emax m1 e1 loc_Exact) as [r2 e2]; cbn [fst snd] in H2.
  destruct (shr_m r2) as [|p|p]; try lia.
  destruct (e2 <=? emax - prec); cbn; lia.
Qed.

Lemma binary_round_positive m e :
  emin <= e -> positive_float (binary_round prec emax false m e).
Proof.
  intros He. unfold binary_round, shl_align.
  set (e' := fexp prec emax (Z.pos (digits2_pos m) + e)).
  assert (emin <= e') by (unfold e', fexp; change (SpecFloat.emin prec emax) with emin; lia).
  destruct (e' - e); apply binary_round_aux_positive; lia.
Qed.

(** The sum of two strictly positive floats is strictly positive. *)
Lemma fadd_positive x y :
  positive_float x -> positive_float y -> positive_float (fadd x y).
Proof.
  destruct x as [|[]| |[] mx ex], y as [|[]| |[] my ey]; cbn; try tauto.
  intros Hx Hy.
  destruct (shl_align mx ex (Z.min ex ey)) as [ax ?],
           (shl_align my ey (Z.min ex ey)) as [ay ?]; cbn [fst cond_Zopp].
  cbn [Z.add binary_normalize]. apply binary_round_positive. lia.
Qed.

Lemma fmul_mantissa_ok x y : mantissa_ok (fmul x y).
Proof.
  destruct x as [sx|sx| |sx mx ex], y as [sy|sy| |sy my ey]; cbn; auto.
  pose proof (binary_round_aux_shape (xorb sx sy) (Z.pos (mx * my)) (ex + ey)
                loc_Exact ltac:(lia)) as H.
  destruct (binary_round_aux _ _ _ _ _ _); cbn; tauto.
Qed.

(** Multiplying two non-negative numbers never gives a negative number;
    it gives a NaN only for [0 * inf]. *)
Lemma fmul_nonneg_finite sx mx ex my ey :
  match fmul (S754_finite sx mx ex) (S754_finite false my ey) with
  | S754_zero s | S754_infinity s => s = sx
  | S754_finite s m _ => s = sx /\ Z.pos m < 2 ^ prec
  | S754_nan => False
  end.
Proof.
  cbn. rewrite xorb_false_r.
  apply (binary_round_aux_shape sx (Z.pos (mx * my)) (ex + ey) loc_Exact). lia.
Qed.

End PyFloatFacts.

(* ===================================================================== *)
(** * The composite scorer                                                *)
(* ===================================================================== *)

Module ScorerFacts.
Import PyFloat PyFloatFacts Scorer.

(** A float strictly between [0.0] and [100.0] with a 53-bit mantissa
    rounds to an integer between 0 and 100. *)
Lemma round_between x :
  mantissa_ok x -> flt zero x = true -> flt x hundred = true ->
  exists n, round x = Ok n /\ 0 <= n <= 100.
Proof.
  unfold flt, SFltb, zero, hundred, mantissa_ok, round.
  destruct x as [s|s| |s m e]; cbn [SFcompare]; try discriminate;
    try (destruct s; discriminate).
  destruct s; [discriminate|]. intros Hm _ Hlt.
  eexists; split; [reflexivity|]. cbn [cond_Zopp].
  unfold round_half_even_pos.
  assert (He : e < -46 \/ (e = -46 /\ Z.pos m < 7036874417766400)).
  { destruct (e ?= -46) eqn:Hc; try discriminate.
    - apply Z.compare_eq in Hc. right. split; [exact Hc|].
      rewrite Pos.compare_cont_spec in Hlt.
      destruct (Pos.compare m 7036874417766400) eqn:Hm'; try discriminate.
      exact Hm'.
    - left. apply Z.compare_lt_iff in Hc. exact Hc. }
  destruct (0 <=? e) eqn:H0; [apply Z.leb_le in H0; lia|].
  set (d := 2 ^ (- e)).
  assert (Hd : 2 ^ 46 <= d) by (apply Z.pow_le_mono_r; lia).
  assert (Hq : 0 <= Z.pos m / d <= 99).
  { split; [apply Z.div_pos; lia|].
    assert (Z.pos m / d < 100); [|lia].
    apply Z.div_lt_upper_bound; [lia|].
    destruct He as [He|[He Hm']].
    - assert (2 ^ 47 <= d) by (apply Z.pow_le_mono_r; lia).
      unfold prec in Hm. change (2 ^ 53) with (64 * 2 ^ 47) in Hm. lia.
    - subst e. change d with (2 ^ 46). change (2 ^ 46) with 70368744177664. lia. }
  destruct (2 * (Z.pos m mod d) ?= d); try lia.
  destruct (Z.even (Z.pos m / d)); lia.
Qed.

(** [int(round(max(0.0, min(100.0, x))))] always exists and lies in
    [0, 100], whatever [x] is, NaN and the infinities included. *)
Lemma round_clamp x :
  mantissa_ok x ->
  exists n, round (clamp_0_100 x) = Ok n /\ 0 <= n <= 100.
Proof.
  intros Hm. unfold clamp_0_100, min2.
  destruct (flt x hundred) eqn:Hh.
  - unfold max2. destruct (flt zero x) eqn:Hz.
    + apply round_between; assumption.
    + exists 0. split; [reflexivity|lia].
  - exists 100. split; [reflexivity|lia].
Qed.

Lemma positive_not_le_zero x : positive_float x -> fle x zero = false.
Proof. destruct x as [|[]| |[] m e]; cbn; tauto. Qed.

Lemma positive_not_zero x : positive_float x -> is_zero x = false.
Proof. destruct x as [|[]| |[] m e]; cbn; tauto. Qed.

Lemma fadd_zero_positive x : positive_float x -> fadd zero x = x.
Proof. destruct x as [|[]| |[] m e]; cbn; tauto. Qed.

Lemma weight_in_cases ws k :
  weight_in ws k = zero \/ In (weight_in ws k) (map snd ws).
Proof.
  induction ws as [|[k' w] ws IH]; cbn; [auto|].
  destruct (String.eqb k k'); [auto|]. destruct IH; auto.
Qed.

(** A configured weight that passes the test [w > 0] is a positive,
    finite double. *)
Lemma weight_of_positive k :
  flt zero (weight_of k) = true -> positive_float (weight_of k).
Proof.
  unfold weight_of. destruct (weight_in_cases METRIC_WEIGHTS k) as [->|Hin].
  - discriminate.
  - intros _. revert Hin. generalize (weight_in METRIC_WEIGHTS k). intros w Hin.
    assert (Hall : Forall positive_float (map snd METRIC_WEIGHTS)).
    { vm_compute. repeat constructor; discriminate. }
    rewrite Forall_forall in Hall. apply Hall. apply list_elem_of_In. exact Hin.
Qed.

Lemma sum_weights_positive_from (ts : list (string * spec_float * spec_float)) :
  forall acc,
  positive_float acc ->
  Forall (fun t => positive_float (snd t)) ts ->
  positive_float (fold_left (fun a t => fadd a (snd t)) ts acc).
Proof.
  induction ts as [|t ts IH]; intros acc Hacc Hall; cbn; [exact Hacc|].
  inversion Hall; subst. apply IH; [|assumption].
  apply fadd_positive; assumption.
Qed.

Lemma sum_weights_positive (ts : list (string * spec_float * spec_float)) :
  ts <> [] ->
  Forall (fun t => positive_float (snd t)) ts ->
  positive_float (sum_weights ts).
Proof.
  destruct ts as [|t ts]; [congruence|]. intros _ Hall.
  inversion Hall; subst. unfold sum_weights. cbn [fold_left].
  rewrite fadd_zero_positive by assumption.
  apply sum_weights_positive_from; assumption.
Qed.

End ScorerFacts.

Module ScorerTheorems.
Import PyFloat PyFloatFacts Scorer ScorerFacts.

Lemma extract_score_cases v :
  match _extract_score v with
  | Ok (Some _) => has_numeric_score v = true
  | Ok None => has_numeric_score v = false
  | Raise _ => has_numeric_score v = true
  end.
Proof.
  destruct v as [| | | | | | |d]; try reflexivity.
  unfold _extract_score, has_numeric_score.
  destruct (Py.is_number (Py.get d "score")); [|reflexivity].
  destruct (Py.float_of_number (Py.get d "score")); reflexivity.
Qed.

Lemma collect_triples_spec scores :
  match collect_triples scores with
  | Ok ts =>
      (ts = [] <-> Forall (fun kv => counts kv = false) scores) /\
      Forall (fun t => positive_float (snd t)) ts
  | Raise e => Exists (fun kv => _extract_score (snd kv) = Raise e) scores
  end.
Proof.
  induction scores as [|[k v] rest IH]; cbn [collect_triples].
  - split; [split; auto|constructor].
  - pose proof (extract_score_cases v) as Hv.
    destruct (_extract_score v) as [[s|]|e] eqn:Es; cbn [mbind result_bind].
    + destruct (flt zero (weight_of k)) eqn:Hw.
      * destruct (collect_triples rest) as [ts|e]; cbn [mbind result_bind].
        -- destruct IH as [_ IH]. split.
           ++ split; [discriminate|]. intros H. inversion H as [|? ? Hc _]; subst.
              unfold counts in Hc. cbn [fst snd] in Hc. rewrite Hv, Hw in Hc. discriminate.
           ++ constructor; [|exact IH]. cbn [snd]. apply weight_of_positive, Hw.
        -- apply Exists_cons_tl, IH.
      * destruct (collect_triples rest) as [ts|e].
        -- destruct IH as [IH1 IH2]. split; [|exact IH2].
           rewrite IH1. split; intros H.
           ++ constructor; [|exact H]. unfold counts. cbn [fst snd]. rewrite Hw.
              apply andb_false_r.
           ++ inversion H; assumption.
        -- apply Exists_cons_tl, IH.
    + destruct (collect_triples rest) as [ts|e].
      * destruct IH as [IH1 IH2]. split; [|exact IH2].
        rewrite IH1. split; intros H.
        -- constructor; [|exact H]. unfold counts. cbn [fst snd]. rewrite Hv. reflexivity.
        -- inversion H; assumption.
      * apply Exists_cons_tl, IH.
    + apply Exists_cons_hd. exact Es.
Qed.

Section WithLibm.
Variable math_log math_exp : spec_float -> result spec_float.

Lemma accumulate_raises total ts : forall acc,
  positive_float total ->
  match accumulate math_log total ts acc with
  | Ok _ => True
  | Raise e => exists x, math_log x = Raise e
  end.
Proof.
  induction ts as [|[[k s] w] ts IH]; intros acc Ht; cbn [accumulate]; [exact I|].
  unfold truediv. rewrite (positive_not_zero total Ht).
  change (is_zero hundred) with false. cbn [mbind result_bind].
  destruct (math_log (fdiv s hundred)) as [l|e] eqn:El; cbn [mbind result_bind];
    [|eauto].
  apply IH, Ht.
Qed.

(** The only ways for the scorer to raise: [float()] overflowing on a
    score, or the C library raising. *)
Lemma scorer_raises scores e :
  _geometric_mean_over_scores math_log math_exp scores = Raise e ->
  Exists (fun kv => _extract_score (snd kv) = Raise e) scores \/
  (exists x, math_log x = Raise e) \/ (exists x, math_exp x = Raise e).
Proof.
  unfold _geometric_mean_over_scores.
  pose proof (collect_triples_spec scores) as Hc.
  destruct (collect_triples scores) as [ts|e0]; cbn [mbind result_bind];
    [|intros [= <-]; auto].
  destruct Hc as [_ Hpos].
  destruct ts as [|t ts]; [discriminate|].
  assert (Htot : positive_float (sum_weights (t :: ts)))
    by (apply sum_weights_positive; [discriminate|exact Hpos]).
  rewrite (positive_not_le_zero _ Htot).
  pose proof (accumulate_raises (sum_weights (t :: ts)) (t :: ts) zero Htot) as Ha.
  destruct (accumulate math_log (sum_weights (t :: ts)) (t :: ts) zero) as [acc|e0];
    cbn [mbind result_bind]; [|intros [= <-]; auto].
  destruct (math_exp acc) as [x|e0] eqn:Ex; cbn [mbind result_bind];
    [|intros [= <-]; eauto].
  destruct (round_clamp (fmul hundred x) (fmul_mantissa_ok _ _)) as (n & Hn & _).
  unfold clamp_0_100 in Hn. rewrite Hn. discriminate.
Qed.

(** C2 (amended).  For every metrics map, when the scorer returns, its
    result is [None] exactly when no metric with a positive configured
    weight carries a numeric score, and otherwise an integer between 0 and
    100; it returns unless [float()] overflows on a score or the C library
    raises. *)
Theorem overall_score_null_iff_no_weighted_score (scores : Py.dict) :
  match _geometric_mean_over_scores math_log math_exp scores with
  | Ok r =>
      (r = None <-> Forall (fun kv => counts kv = false) scores) /\
      (forall n, r = Some n -> 0 <= n <= 100)
  | Raise e =>
      Exists (fun kv => _extract_score (snd kv) = Raise e) scores \/
      (exists x, math_log x = Raise e) \/ (exists x, math_exp x = Raise e)
  end.
Proof.
  destruct (_geometric_mean_over_scores math_log math_exp scores) as [r|e] eqn:Hs;
    [|apply scorer_raises; exact Hs].
  revert Hs. unfold _geometric_mean_over_scores.
  pose proof (collect_triples_spec scores) as Hc.
  destruct (collect_triples scores) as [ts|e]; cbn [mbind result_bind]; [|discriminate].
  destruct Hc as [Hnil Hpos].
  destruct ts as [|t ts].
  - intros [= <-]. split; [|discriminate].
    split; [intros _; apply Hnil; reflexivity|reflexivity].
  - assert (Htot : positive_float (sum_weights (t :: ts)))
      by (apply sum_weights_positive; [discriminate|exact Hpos]).
    rewrite (positive_not_le_zero _ Htot).
    destruct (accumulate math_log (sum_weights (t :: ts)) (t :: ts) zero) as [acc|e];
      cbn [mbind result_bind]; [|discriminate].
    destruct (math_exp acc) as [x|e]; cbn [mbind result_bind]; [|discriminate].
    destruct (round_clamp (fmul hundred x) (fmul_mantissa_ok _ _)) as (n & Hn & Hr).
    unfold clamp_0_100 in Hn. rewrite Hn. cbn [mbind result_bind].
    intros [= <-]. split.
    + split; [discriminate|]. intros H. apply Hnil in H. discriminate.
    + intros n' [= <-]. exact Hr.
Qed.

End WithLibm.

(** C2, counterexample to the claim as stated.  A metrics map whose only
    entry is an unweighted metric with the numeric score 50: a usable
    numeric score was produced, yet the overall score is [None]. *)
Lemma unweighted_score_gives_null :
  Exists (fun kv => exists s, _extract_score (snd kv) = Ok (Some s)) Scenario.demographics_only /\
  _geometric_mean_over_scores exact_log exact_exp Scenario.demographics_only = Ok None.
Proof.
  split; [|vm_compute; reflexivity].
  apply Exists_cons_hd. eexists. vm_compute. reflexivity.
Qed.

Example overall_score_single_full_metric :
  _geometric_mean_over_scores exact_log exact_exp
    [("air_quality"%string, VDict [("score"%string, VInt 100)])] = Ok (Some 100).
Proof. vm_compute. reflexivity. Qed.

Example overall_score_nan_clamped :
  _extract_score (VDict [("score"%string, VFloat S754_nan)]) = Ok (Some hundred).
Proof. vm_compute. reflexivity. Qed.

End ScorerTheorems.

(* ===================================================================== *)
(** * Clock comparisons                                                   *)
(* ===================================================================== *)

Lemma Qltb_lt x y : Qltb x y = true <-> (x < y)%Q.
Proof.
  unfold Qltb. rewrite negb_true_iff, <- not_true_iff_false, Qle_bool_iff.
  split; [apply Qnot_le_lt | apply Qlt_not_le].
Qed.

Lemma Qltb_ge x y : Qltb x y = false <-> (y <= x)%Q.
Proof.
  unfold Qltb. rewrite negb_false_iff, Qle_bool_iff. reflexivity.
Qed.

(* ===================================================================== *)
(** * The TTL memoizer                                                    *)
(* ===================================================================== *)

Module CacheTheorems.
Import Cache.

Section TtlCache.
Context {K V W : Type} `{Countable K}.
Variable seconds : Z.
Variable fn : K -> W -> result V * W.

Lemma wrapper_miss key now m w :
  entries m !! key = None ->
  wrapper seconds fn key now (m, w) = compute_and_store fn key now (m, w).
Proof. intros Hm. unfold wrapper. cbn [fst]. rewrite Hm. reflexivity. Qed.

Lemma wrapper_fresh key now m w v ts :
  entries m !! key = Some (v, ts) ->
  (now - ts < inject_Z seconds)%Q ->
  wrapper seconds fn key now (m, w) = (Ok v, (m, w)).
Proof.
  intros Hm Hlt. unfold wrapper. cbn [fst]. rewrite Hm.
  apply Qltb_lt in Hlt. rewrite Hlt. reflexivity.
Qed.

Lemma wrapper_stale key now m w v ts :
  entries m !! key = Some (v, ts) ->
  (inject_Z seconds <= now - ts)%Q ->
  wrapper seconds fn key now (m, w) = compute_and_store fn key now (m, w).
Proof.
  intros Hm Hge. unfold wrapper. cbn [fst]. rewrite Hm.
  apply Qltb_ge in Hge. rewrite Hge. reflexivity.
Qed.

(** C8.  A first call at [t] runs the function and stores its value; an
    identical call at [t + ttl - eps] returns the stored value, leaving
    memo, invocation log and world untouched; a call at [t + ttl + eps]
    runs the function again and, when it returns, overwrites the entry. *)
Theorem ttl_memo_hit_then_refresh (key : K) (t eps : Q) (m : memo K V) (w w1 : W) (v : V) :
  (0 < eps)%Q ->
  entries m !! key = None ->
  fn key w = (Ok v, w1) ->
  let ttl := inject_Z seconds in
  let m1 := Memo (<[key := (v, t)]> (entries m)) (invoked m ++ [key]) in
  wrapper seconds fn key t (m, w) = (Ok v, (m1, w1)) /\
  wrapper seconds fn key (t + ttl - eps)%Q (m1, w1) = (Ok v, (m1, w1)) /\
  (forall r w2, fn key w1 = (r, w2) ->
     invoked (fst (snd (wrapper seconds fn key (t + ttl + eps)%Q (m1, w1))))
       = invoked m ++ [key; key]) /\
  (forall v' w2, fn key w1 = (Ok v', w2) ->
     wrapper seconds fn key (t + ttl + eps)%Q (m1, w1)
       = (Ok v', (Memo (<[key := (v', (t + ttl + eps)%Q)]> (entries m1))
                       (invoked m1 ++ [key]), w2))).
Proof.
  intros Heps Hnew Hfn ttl m1.
  assert (Hm1 : entries m1 !! key = Some (v, t)) by apply lookup_insert_eq.
  split; [|split; [|split]].
  - rewrite wrapper_miss by exact Hnew. unfold compute_and_store. rewrite Hfn. reflexivity.
  - apply wrapper_fresh with (ts := t); [exact Hm1|]. unfold ttl. lra.
  - intros r w2 Hfn'. rewrite wrapper_stale with (v := v) (ts := t);
      [|exact Hm1|unfold ttl; lra].
    unfold compute_and_store. rewrite Hfn'.
    destruct r; cbn; rewrite <- app_assoc; reflexivity.
  - intros v' w2 Hfn'. rewrite wrapper_stale with (v := v) (ts := t);
      [|exact Hm1|unfold ttl; lra].
    unfold compute_and_store. rewrite Hfn'. reflexivity.
Qed.

End TtlCache.

Lemma ttl_memo_hit_then_refresh_witness :
  let m1 := Memo (<["77002"%string := (0%nat, 10%Q)]> ∅) ["77002"%string] in
  wrapper 3600 Scenario.tick "77002"%string 10 (empty_memo, 0%nat) = (Ok 0%nat, (m1, 1%nat)) /\
  wrapper 3600 Scenario.tick "77002"%string (10 + inject_Z 3600 - 1) (m1, 1%nat)
    = (Ok 0%nat, (m1, 1%nat)) /\
  (forall r w2, Scenario.tick "77002"%string 1%nat = (r, w2) ->
     invoked (fst (snd (wrapper 3600 Scenario.tick "77002"%string
                          (10 + inject_Z 3600 + 1) (m1, 1%nat))))
       = [] ++ ["77002"%string; "77002"%string]) /\
  (forall v' w2, Scenario.tick "77002"%string 1%nat = (Ok v', w2) ->
     wrapper 3600 Scenario.tick "77002"%string (10 + inject_Z 3600 + 1) (m1, 1%nat)
       = (Ok v', (Memo (<["77002"%string := (v', (10 + inject_Z 3600 + 1)%Q)]> (entries m1))
                       (invoked m1 ++ ["77002"%string]), w2))).
Proof.
  apply (ttl_memo_hit_then_refresh 3600 Scenario.tick "77002"%string 10 1 empty_memo
           0%nat 1%nat 0%nat).
  - reflexivity.
  - reflexivity.
  - reflexivity.
Defined.

End CacheTheorems.

(* ===================================================================== *)
(** * Admission control                                                   *)
(* ===================================================================== *)

Module AdmissionTheorems.
Import Admission.

Lemma in_window_all now calls :
  Forall (fun t => (now - t < 60)%Q) calls -> in_window now calls = calls.
Proof.
  induction 1 as [|t calls Ht _ IH]; [reflexivity|].
  unfold in_window in *. cbn [List.filter].
  apply Qltb_lt in Ht. rewrite Ht, IH. reflexivity.
Qed.

Lemma in_window_none now calls :
  Forall (fun t => (60 <= now - t)%Q) calls -> in_window now calls = [].
Proof.
  induction 1 as [|t calls Ht _ IH]; [reflexivity|].
  unfold in_window in *. cbn [List.filter].
  apply Qltb_ge in Ht. rewrite Ht, IH. reflexivity.
Qed.

Lemma admission_below limit ip now log :
  Z.of_nat (length (in_window now (default [] (log !! ip)))) < limit ->
  check_admission limit ip now log
    = (Ok tt, <[ip := in_window now (default [] (log !! ip)) ++ [now]]> log).
Proof.
  intros Hlt. unfold check_admission.
  destruct (limit <=? _) eqn:E; [apply Z.leb_le in E; lia|reflexivity].
Qed.

Lemma admission_full limit ip now log :
  limit <= Z.of_nat (length (in_window now (default [] (log !! ip)))) ->
  check_admission limit ip now log = (Raise too_many_requests, log).
Proof.
  intros Hle. unfold check_admission.
  destruct (limit <=? _) eqn:E; [reflexivity|apply Z.leb_gt in E; lia].
Qed.

(** Replaying requests that all fall into one window: as long as fewer
    than [limit] of them were seen, each is admitted and remembered. *)
Lemma replay_admits limit ip (times : list Q) : forall (seen : list Q) log,
  (forall u, u ∈ times -> in_window u (default [] (log !! ip)) = seen) ->
  Z.of_nat (length seen + length times) <= limit ->
  (forall x u, x ∈ seen ++ times -> u ∈ times -> (u - x < 60)%Q) ->
  Forall (fun r => r = Ok tt) (fst (replay limit ip times log)) /\
  (times <> [] -> snd (replay limit ip times log) !! ip = Some (seen ++ times)) /\
  (times = [] -> snd (replay limit ip times log) = log).
Proof.
  induction times as [|t rest IH]; intros seen log Hseen Hlen Hwin.
  - cbn. split; [constructor|]. split; [congruence|reflexivity].
  - cbn [replay].
    assert (Ht : in_window t (default [] (log !! ip)) = seen)
      by (apply Hseen; left).
    rewrite admission_below by (rewrite Ht; cbn [length] in Hlen; lia).
    rewrite Ht.
    set (log1 := <[ip := seen ++ [t]]> log).
    assert (Hlook : log1 !! ip = Some (seen ++ [t])) by apply lookup_insert_eq.
    specialize (IH (seen ++ [t]) log1).
    destruct (replay limit ip rest log1) as [rs log2] eqn:Er.
    cbn [fst snd] in *.
    destruct IH as (IH1 & IH2 & IH3).
    + intros u Hu. rewrite Hlook. cbn [default from_option].
      apply in_window_all. apply Forall_forall. intros x Hx.
      apply Hwin; [|right; exact Hu].
      apply elem_of_app in Hx as [Hx|Hx]; apply elem_of_app; [left; exact Hx|].
      right. apply list_elem_of_singleton in Hx as ->. left.
    + rewrite length_app. cbn [length] in *. lia.
    + intros x u Hx Hu. apply Hwin; [|right; exact Hu].
      rewrite <- app_assoc in Hx. exact Hx.
    + split; [constructor; [reflexivity|exact IH1]|].
      split; [|discriminate]. intros _.
      destruct rest as [|t2 rest].
      * rewrite IH3 by reflexivity. exact Hlook.
      * rewrite IH2 by discriminate. rewrite <- app_assoc. reflexivity.
Qed.

(** C9.  From an identity with nothing recent in its log, [limit]
    requests inside one 60-second window are all admitted; one more
    request inside that window is refused with status 429 and leaves no
    trace; once every earlier timestamp is at least 60 seconds old, a
    request is admitted again (for a limit of at least one). *)
Theorem sliding_window_admission (limit : Z) (ip : string) (times : list Q)
    (log : request_log) (t_next t_later : Q) :
  Z.of_nat (length times) = limit ->
  Forall (fun o => forall u, u ∈ times ++ [t_next; t_later] -> (60 <= u - o)%Q)
         (default [] (log !! ip)) ->
  (forall t, t ∈ times -> (t <= t_next)%Q /\ (t_next - t < 60)%Q) ->
  (forall t, t ∈ times -> (60 <= t_later - t)%Q) ->
  let log1 := snd (replay limit ip times log) in
  Forall (fun r => r = Ok tt) (fst (replay limit ip times log)) /\
  check_admission limit ip t_next log1
    = (Raise (HTTPException 429 "Rate limit exceeded. Try again later."), log1) /\
  (0 < limit -> fst (check_admission limit ip t_later log1) = Ok tt).
Proof.
  intros Hlen Hold Hwin Hlater log1.
  assert (Hstale : forall u, u ∈ times ++ [t_next; t_later] ->
            in_window u (default [] (log !! ip)) = []).
  { intros u Hu. apply in_window_none. eapply Forall_impl; [exact Hold|].
    intros o Ho. apply Ho, Hu. }
  destruct (replay_admits limit ip times [] log) as (H1 & H2 & H3).
  { intros u Hu. apply Hstale. apply elem_of_app. left. exact Hu. }
  { cbn [length]. lia. }
  { intros x u Hx Hu. cbn [app] in Hx.
    destruct (Hwin x Hx) as [_ Hx2]. destruct (Hwin u Hu) as [Hu1 _]. lra. }
  fold log1 in H2, H3. cbn [app] in H2.
  assert (Hnext : in_window t_next (default [] (log1 !! ip)) = times).
  { destruct times as [|t0 times'].
    - rewrite H3 by reflexivity. apply Hstale. cbn [app]. left.
    - rewrite H2 by discriminate. cbn [default from_option].
      apply in_window_all, Forall_forall. intros x Hx. apply Hwin, Hx. }
  assert (Hgone : in_window t_later (default [] (log1 !! ip)) = []).
  { destruct times as [|t0 times'].
    - rewrite H3 by reflexivity. apply Hstale. cbn [app]. right. left.
    - rewrite H2 by discriminate. cbn [default from_option].
      apply in_window_none, Forall_forall. intros x Hx. apply Hlater, Hx. }
  split; [exact H1|]. split.
  - apply admission_full. rewrite Hnext. lia.
  - intros Hpos. rewrite admission_below by (rewrite Hgone; cbn [length]; lia).
    reflexivity.
Qed.

(** Two requests per minute: requests at seconds 0 and 10 pass, the one
    at second 20 is refused, the one at second 75 passes. *)
Lemma sliding_window_admission_witness :
  let log1 := snd (replay 2 "203.0.113.7" [0%Q; 10%Q] ∅) in
  Forall (fun r => r = Ok tt) (fst (replay 2 "203.0.113.7" [0%Q; 10%Q] ∅)) /\
  check_admission 2 "203.0.113.7" 20 log1
    = (Raise (HTTPException 429 "Rate limit exceeded. Try again later."), log1) /\
  (0 < 2 -> fst (check_admission 2 "203.0.113.7" 75 log1) = Ok tt).
Proof.
  apply (sliding_window_admission 2 "203.0.113.7" [0%Q; 10%Q] ∅ 20 75).
  - reflexivity.
  - exact (List.Forall_nil _).
  - intros t Ht. apply list_elem_of_In in Ht.
    destruct Ht as [<-|[<-|[]]]; split; reflexivity || discriminate.
  - intros t Ht. apply list_elem_of_In in Ht.
    destruct Ht as [<-|[<-|[]]]; discriminate.
Defined.

End AdmissionTheorems.

(* ===================================================================== *)
(** * The orchestrator                                                    *)
(* ===================================================================== *)

Module OrchestratorFacts.
Import Orchestrator.
Local Open Scope string_scope.

Ltac bind_inv H :=
  let x := fresh "x" in
  let Hx := fresh "Hx" in
  apply bind_Ok_inv in H as (x & Hx & H).

Section WithPlatform.
Variable pf : platform.

Lemma build_scores_Ok outs scores :
  build_scores pf outs = Ok scores <-> entries_of pf outs scores.
Proof.
  split.
  - unfold build_scores. intros Hb.
    do 13 bind_inv Hb. injection Hb as <-.
    unfold entries_of. repeat eexists; eassumption.
  - intros (air & land & traffic & toxic & green & dem & sea & transit & water & flood
            & e_air & e_land & e_traffic & H1 & H2 & H3 & H4 & H5 & H6 & H7 & H8 & H9
            & H10 & Ha & Hl & Ht & ->).
    unfold build_scores.
    rewrite H1, H2, H3, H4, H5, H6, H7, H8, H9, H10. cbn [mbind result_bind].
    rewrite Ha. cbn [mbind result_bind]. rewrite Hl. cbn [mbind result_bind].
    rewrite Ht. reflexivity.
Qed.

(** A future that raised makes [Future.result()] raise: no composite. *)
Lemma build_scores_raises outs a e :
  outs a = Raise e -> exists e', build_scores pf outs = Raise e'.
Proof.
  intros Ha. destruct (build_scores pf outs) as [scores|e'] eqn:Hb; [|eauto].
  apply build_scores_Ok in Hb.
  destruct Hb as (air & land & traffic & toxic & green & dem & sea & transit & water
                  & flood & e_air & e_land & e_traffic & H1 & H2 & H3 & H4 & H5 & H6
                  & H7 & H8 & H9 & H10 & _).
  destruct a; congruence.
Qed.

Lemma passthrough_failed r msg :
  succeeded r = false ->
  is_error_entry (Some (passthrough_entry r msg)) = true.
Proof. intros Hs. unfold passthrough_entry. rewrite Hs. reflexivity. Qed.

End WithPlatform.
End OrchestratorFacts.

Module OrchestratorTheorems.
Import Orchestrator OrchestratorFacts Scorer.
Local Open Scope string_scope.

Lemma extract_error_entry v :
  is_error_entry (Some v) = true -> _extract_score v = Ok None.
Proof.
  destruct v as [| | | | | | |d]; try discriminate. cbn [is_error_entry].
  intros Hd. apply andb_prop in Hd as [_ Hs]. apply negb_true_iff in Hs.
  unfold _extract_score, Py.get, Py.get_default. unfold Py.contains in Hs.
  destruct (Py.lookup d "score"); [discriminate|reflexivity].
Qed.

Lemma collect_triples_returns scores :
  returns (collect_triples scores) = true <->
  Forall (fun kv => returns (_extract_score (snd kv)) = true) scores.
Proof.
  induction scores as [|[k v] rest IH]; cbn [collect_triples].
  - split; [constructor|reflexivity].
  - destruct (_extract_score v) as [[s|]|e] eqn:Es; cbn [mbind result_bind].
    + destruct (PyFloat.flt PyFloat.zero (weight_of k)).
      * destruct (collect_triples rest) as [ts|e]; cbn [mbind result_bind returns] in *.
        -- split; [intros _|reflexivity]. constructor; [cbn [snd]; rewrite Es; reflexivity|].
           apply IH. reflexivity.
        -- split; [discriminate|]. intros H. inversion H; subst. apply IH. assumption.
      * rewrite IH. split; intros H.
        -- constructor; [cbn [snd]; rewrite Es; reflexivity|exact H].
        -- inversion H; assumption.
    + rewrite IH. split; intros H.
      * constructor; [cbn [snd]; rewrite Es; reflexivity|exact H].
      * inversion H; assumption.
    + cbn [returns]. split; [discriminate|]. intros H. inversion H as [|? ? Hv _]; subst.
      cbn [snd] in Hv. rewrite Es in Hv. discriminate.
Qed.

Lemma with_outcome_same a r outs : with_outcome a r outs a = r.
Proof. unfold with_outcome. destruct (decide (a = a)); congruence. Qed.

Lemma with_outcome_other a b r outs : b <> a -> with_outcome a r outs b = outs b.
Proof. intros Hn. unfold with_outcome. destruct (decide (b = a)); congruence. Qed.

Lemma air_entry_failed v :
  reports_error v = true ->
  exists e, air_entry v = Ok e /\ is_error_entry (Some e) = true.
Proof.
  destruct v as [| | | | | | |d]; try discriminate. cbn [reports_error]. intros Hd.
  unfold air_entry, succeeded. rewrite Hd. cbn [negb].
  eexists. split; [reflexivity|]. reflexivity.
Qed.

Ltac other_outcomes :=
  repeat match goal with
  | H : with_outcome ?a _ _ ?b = _ |- _ =>
      first [ rewrite with_outcome_other in H by discriminate
            | rewrite with_outcome_same in H ]
  end.

Ltac not_a_metric Hm :=
  repeat match goal with
  | |- context [String.eqb ?m ?k] =>
      let E := fresh "E" in
      destruct (String.eqb m k) eqn:E;
      [ try reflexivity; apply String.eqb_eq in E; subst; exfalso; apply Hm;
        cbn [metrics_of]; repeat constructor
      | ]
  end; try reflexivity.

Ltac error_entries :=
  first [ assumption | apply passthrough_failed; assumption ].

Ltac isolate_case :=
  eexists; split; [|split; [|split]];
  [ apply build_scores_Ok; unfold entries_of; do 13 eexists;
    rewrite ?with_outcome_same, ?with_outcome_other by discriminate;
    repeat split; first [eassumption | reflexivity]
  | let m := fresh "m" in let Hm := fresh "Hm" in
    intros m Hm; cbn [metrics_of] in Hm;
    repeat (apply elem_of_cons in Hm as [->|Hm];
            [cbn [Py.lookup String.eqb Ascii.eqb Bool.eqb andb]; error_entries|]);
    apply elem_of_nil in Hm; contradiction
  | let m := fresh "m" in let Hm := fresh "Hm" in
    intros m Hm; cbn [Py.lookup]; not_a_metric Hm
  | unfold extracts; intros Hx;
    repeat match goal with H : Forall _ (_ :: _) |- _ => inversion H; clear H; subst end;
    repeat constructor; try assumption;
    cbn [snd]; rewrite extract_error_entry by error_entries; reflexivity ].

Section Isolation.
Variable pf : platform.

Lemma land_entries_failed v :
  succeeded v = false ->
  exists e, land_entries pf v = Ok e /\
    is_error_entry (Some (fst e)) = true /\ is_error_entry (Some (snd e)) = true.
Proof.
  intros Hs. unfold land_entries. rewrite Hs. eexists. split; [reflexivity|].
  split; reflexivity.
Qed.

Lemma traffic_entry_failed v :
  succeeded v = false ->
  exists e, traffic_entry pf v = Ok e /\ is_error_entry (Some e) = true.
Proof.
  intros Hs. unfold traffic_entry. rewrite Hs. eexists. split; reflexivity.
Qed.

(** Replacing the outcome of one adapter by a failure it returns changes
    the entries of its own metrics, to error entries, and nothing else. *)
Lemma failed_adapter_isolated outs a v r scores :
  failed_result a v = true ->
  build_scores pf (with_outcome a r outs) = Ok scores ->
  exists scores_err,
    build_scores pf (with_outcome a (Ok v) outs) = Ok scores_err /\
    (forall m, m ∈ metrics_of a -> is_error_entry (Py.lookup scores_err m) = true) /\
    (forall m, m ∉ metrics_of a -> Py.lookup scores_err m = Py.lookup scores m) /\
    (extracts scores -> extracts scores_err).
Proof.
  intros Hf Hb. apply build_scores_Ok in Hb.
  destruct Hb as (air & land & traffic & toxic & green & dem & sea & transit & water
                  & flood & e_air & e_land & e_traffic & H1 & H2 & H3 & H4 & H5 & H6
                  & H7 & H8 & H9 & H10 & Ha & Hl & Ht & ->).
  destruct a; cbn [failed_result] in Hf; other_outcomes;
    try apply negb_true_iff in Hf.
  - destruct (air_entry_failed v Hf) as (e & He & Herr). isolate_case.
  - destruct (land_entries_failed v Hf) as (e & He & Herr1 & Herr2). isolate_case.
  - destruct (traffic_entry_failed v Hf) as (e & He & Herr). isolate_case.
  - isolate_case.
  - isolate_case.
  - isolate_case.
  - isolate_case.
  - isolate_case.
  - isolate_case.
  - isolate_case.
Qed.

End Isolation.

Section WithPlatform.
Variable pf : platform.
Hypothesis log_total : forall x, returns (math_log pf x) = true.
Hypothesis exp_total : forall x, returns (math_exp pf x) = true.

(** With a C library that does not raise, the scorer returns exactly
    when it can read every entry. *)
Lemma scorer_returns scores :
  returns (_geometric_mean_over_scores (math_log pf) (math_exp pf) scores) = true <->
  Forall (fun kv => returns (_extract_score (snd kv)) = true) scores.
Proof.
  rewrite <- collect_triples_returns. split.
  - unfold _geometric_mean_over_scores.
    destruct (collect_triples scores); [reflexivity|discriminate].
  - intros Hc.
    destruct (_geometric_mean_over_scores _ _ scores) as [o|e] eqn:Hs; [reflexivity|].
    exfalso. destruct (ScorerTheorems.scorer_raises _ _ _ _ Hs) as [Hx|[[x Hx]|[x Hx]]].
    + apply collect_triples_returns in Hc. rewrite Forall_forall in Hc.
      apply Exists_exists in Hx as (kv & Hin & Hkv).
      specialize (Hc kv Hin). rewrite Hkv in Hc. discriminate.
    + specialize (log_total x). rewrite Hx in log_total. discriminate.
    + specialize (exp_total x). rewrite Hx in exp_total. discriminate.
Qed.

Lemma orchestrate_Ok zip coords outs comp :
  orchestrate pf zip coords outs = Ok comp <->
  exists scores o,
    build_scores pf outs = Ok scores /\
    _geometric_mean_over_scores (math_log pf) (math_exp pf) scores = Ok o /\
    comp = VDict [("zip", VStr zip); ("coordinates", coords);
                  ("scores", VDict scores); ("overall_score", overall_value o)].
Proof.
  unfold orchestrate. split.
  - intros Ho. do 2 bind_inv Ho. injection Ho as <-. eauto.
  - intros (scores & o & Hb & Hs & ->). rewrite Hb. cbn [mbind result_bind].
    rewrite Hs. reflexivity.
Qed.

(** C1 (amended).  When no adapter call raises, an adapter that returns
    a failure (a dictionary with an ["error"] key; for the adapters other
    than air quality, also any value that is not a dictionary) is recorded
    as an error entry under its own metric(s) only: whenever the request
    goes through for some outcome of that adapter, it goes through with
    the failure too, and all other metrics are the same.  An adapter call
    that raises is not captured: no composite is returned. *)
Theorem adapter_failure_recorded_for_its_metrics_only
    (zip : string) (coords : pyval) (outs : outcomes) (a : adapter) (v : pyval) :
  failed_result a v = true ->
  (forall r comp,
     orchestrate pf zip coords (with_outcome a r outs) = Ok comp ->
     exists comp_err,
       orchestrate pf zip coords (with_outcome a (Ok v) outs) = Ok comp_err /\
       (forall m, m ∈ metrics_of a -> is_error_entry (metric_of comp_err m) = true) /\
       (forall m, m ∉ metrics_of a -> metric_of comp_err m = metric_of comp m)) /\
  (forall e, exists e',
     orchestrate pf zip coords (with_outcome a (Raise e) outs) = Raise e').
Proof.
  intros Hf. split.
  - intros r comp Ho. apply orchestrate_Ok in Ho as (scores & o & Hb & Hs & ->).
    destruct (failed_adapter_isolated pf outs a v r scores Hf Hb)
      as (scores_err & Hb' & Herr & Hsame & Hx).
    assert (Hret : returns (_geometric_mean_over_scores (math_log pf) (math_exp pf)
                              scores_err) = true).
    { apply scorer_returns, Hx. apply scorer_returns. rewrite Hs. reflexivity. }
    destruct (_geometric_mean_over_scores _ _ scores_err) as [o'|] eqn:Hs';
      [|discriminate].
    eexists. split; [apply orchestrate_Ok; eauto|]. split.
    + intros m Hm. apply (Herr m Hm).
    + intros m Hm. apply (Hsame m Hm).
  - intros e.
    destruct (build_scores_raises pf (with_outcome a (Raise e) outs) a e
                (with_outcome_same _ _ _)) as [e' He'].
    exists e'. unfold orchestrate. rewrite He'. reflexivity.
Qed.

End WithPlatform.

(** With every other adapter answering and the transit adapter
    reporting an error, the composite carries an error entry for transit
    and is computed from the remaining scores. *)
Lemma adapter_failure_recorded_witness :
  (forall r comp,
     orchestrate Scenario.flat_platform "77002" Scenario.houston
       (with_outcome Transit r (fun _ => Ok Scenario.perfect)) = Ok comp ->
     exists comp_err,
       orchestrate Scenario.flat_platform "77002" Scenario.houston
         (with_outcome Transit (Ok Scenario.down) (fun _ => Ok Scenario.perfect))
         = Ok comp_err /\
       (forall m, m ∈ metrics_of Transit -> is_error_entry (metric_of comp_err m) = true) /\
       (forall m, m ∉ metrics_of Transit -> metric_of comp_err m = metric_of comp m)) /\
  (forall e, exists e',
     orchestrate Scenario.flat_platform "77002" Scenario.houston
       (with_outcome Transit (Raise e) (fun _ => Ok Scenario.perfect)) = Raise e').
Proof.
  apply (adapter_failure_recorded_for_its_metrics_only Scenario.flat_platform).
  - intros x. reflexivity.
  - intros x. reflexivity.
  - reflexivity.
Defined.

(** C1, counterexample to the claim as stated.  The transit adapter
    raises while every other adapter answers: [Future.result()] re-raises
    the exception and [compute_green_score] returns no composite at all,
    whereas the same adapter returning an error dictionary is recorded. *)
Lemma raising_adapter_aborts_request :
  orchestrate Scenario.flat_platform "77002" Scenario.houston Scenario.transit_crashes
    = Raise UnboundLocalError /\
  exists comp,
    orchestrate Scenario.flat_platform "77002" Scenario.houston
      Scenario.transit_reports_error = Ok comp /\
    is_error_entry (metric_of comp "transit_access") = true /\
    field comp "overall_score" = Some (VInt 100).
Proof.
  split; [vm_compute; reflexivity|].
  eexists. split; [vm_compute; reflexivity|]. split; vm_compute; reflexivity.
Qed.

End OrchestratorTheorems.

(* ===================================================================== *)
(** * The [/green-score] endpoint                                         *)
(* ===================================================================== *)

Module EndpointTheorems.
Import Admission Orchestrator Endpoint OrchestratorFacts OrchestratorTheorems.
Local Open Scope string_scope.

(** The memo of the geocoder after a call that came back with [None]:
    it holds [None] under the postal code, stamped no more than a day
    before the call, and the geocoder ran at most once. *)
Lemma geocode_failure_memoized zip now geo svc :
  fst (Geocode.get_coordinates_from_zip zip now (geo, svc)) = Ok VNone ->
  let geo' := fst (snd (Geocode.get_coordinates_from_zip zip now (geo, svc))) in
  (exists t0, Cache.entries geo' !! zip = Some (VNone, t0) /\
              (now - t0 < inject_Z Geocode.GEOCODE_TTL)%Q) /\
  (Cache.invoked geo' = Cache.invoked geo \/
   Cache.invoked geo' = Cache.invoked geo ++ [zip])%list.
Proof.
  unfold Geocode.get_coordinates_from_zip, Cache.wrapper. cbn [fst].
  assert (Hcompute :
    fst (Cache.compute_and_store Geocode.resolve zip now (geo, svc)) = Ok VNone ->
    let geo' := fst (snd (Cache.compute_and_store Geocode.resolve zip now (geo, svc))) in
    (exists t0, Cache.entries geo' !! zip = Some (VNone, t0) /\
                (now - t0 < inject_Z Geocode.GEOCODE_TTL)%Q) /\
    (Cache.invoked geo' = Cache.invoked geo \/
     Cache.invoked geo' = Cache.invoked geo ++ [zip])%list).
  { unfold Cache.compute_and_store, Geocode.resolve.
    destruct (svc zip) as [[[lat lon]|]|e]; cbn [fst snd]; try discriminate. intros _.
    split; [|right; reflexivity].
    exists now. split; [apply lookup_insert_eq|].
    assert (H0 : (0 < inject_Z Geocode.GEOCODE_TTL)%Q) by reflexivity. lra. }
  destruct (Cache.entries geo !! zip) as [[val ts]|] eqn:Hlook; [|exact Hcompute].
  destruct (Qltb (now - ts) (inject_Z Geocode.GEOCODE_TTL)) eqn:Hfresh; [|exact Hcompute].
  cbn [fst snd]. intros [= ->]. split; [|left; reflexivity].
  exists ts. split; [exact Hlook|]. apply Qltb_lt. exact Hfresh.
Qed.

Section WithPlatform.
Variable cfg : config.
Variable pf : platform.
Variable etag_of : pyval -> string.

(** A request over the limit is refused with status 429 before anything
    else happens: no state changes. *)
Lemma green_score_refused w ts zip req st :
  fst (check_admission (RATE_LIMIT_PER_MIN cfg) (client_identity req) (t_admit ts)
         (request_log_of st)) = Raise too_many_requests ->
  green_score cfg pf etag_of w ts zip req st = (Raise too_many_requests, st).
Proof.
  unfold green_score. intros Hadm.
  destruct (check_admission _ _ _ _) as [r log']. cbn [fst] in Hadm. subst r.
  reflexivity.
Qed.

Lemma green_score_unreachable_read w ts zip req st :
  admitted cfg req ts st -> up_cache_get ts = false ->
  fst (green_score cfg pf etag_of w ts zip req st) = Raise ConnectionError.
Proof.
  unfold admitted, green_score. intros Hadm Hup.
  destruct (check_admission _ _ _ _) as [r log']. cbn [fst] in Hadm. subst r.
  rewrite Hup. reflexivity.
Qed.

(** What the handler does once the request is admitted and the lookup
    found nothing. *)
Lemma green_score_on_miss w ts zip req st :
  admitted cfg req ts st -> up_cache_get ts = true -> cache_miss cfg zip ts st ->
  let log' := snd (check_admission (RATE_LIMIT_PER_MIN cfg) (client_identity req)
                     (t_admit ts) (request_log_of st)) in
  let computed := compute_green_score pf w zip (t_geocode ts) (geocode_memo st) in
  green_score cfg pf etag_of w ts zip req st =
    match fst computed with
    | Raise e => (Raise e, State log' (snd computed) (store st))
    | Ok result =>
        if error_free result then
          match Kv.cache_set_zip (ZIP_CACHE_TTL_SECONDS cfg) (ZIP_CACHE_PREFIX cfg)
                  (up_cache_set ts) zip result (t_cache_set ts) (store st) with
          | Raise e => (Raise e, State log' (snd computed) (store st))
          | Ok store' =>
              (Ok (Response 200 (etag_of result) "MISS" (Some result)),
               State log' (snd computed) store')
          end
        else (Ok (Returned result), State log' (snd computed) (store st))
    end.
Proof.
  unfold admitted, cache_miss, green_score. intros Hadm Hup Hmiss.
  destruct (check_admission _ _ _ _) as [r log']. cbn [fst snd] in *. subst r.
  rewrite Hup, Hmiss. cbn [Py.truthy].
  destruct (compute_green_score pf w zip (t_geocode ts) (geocode_memo st)) as [res geo'].
  cbn [fst snd]. destruct res as [result|e]; reflexivity.
Qed.

(** C5 (amended).  When the location does not resolve, the admitted
    request that missed the distributed cache ends with the dictionary
    [{"error": "Invalid ZIP code"}] handed back as it is; nothing is
    written to the distributed cache and the geocoder runs at most once
    (no retry).  The in-process memo of the geocoder, however, does hold
    the failure afterwards: for a day, every lookup of that key answers
    [None] from the memo, whatever the geocoding service would say. *)
Theorem unresolved_location_fails_and_is_memoized
    (w : world) (ts : instants) (zip : string) (req : request) (st : state) :
  admitted cfg req ts st -> up_cache_get ts = true -> cache_miss cfg zip ts st ->
  fst (Geocode.get_coordinates_from_zip zip (t_geocode ts) (geocode_memo st, geocoder w))
    = Ok VNone ->
  let st' := snd (green_score cfg pf etag_of w ts zip req st) in
  fst (green_score cfg pf etag_of w ts zip req st) = Ok (Returned invalid_zip) /\
  store st' = store st /\
  (Cache.invoked (geocode_memo st') = Cache.invoked (geocode_memo st) \/
   Cache.invoked (geocode_memo st') = Cache.invoked (geocode_memo st) ++ [zip])%list /\
  exists t0,
    Cache.entries (geocode_memo st') !! zip = Some (VNone, t0) /\
    forall svc' t', (t' - t0 < inject_Z Geocode.GEOCODE_TTL)%Q ->
      Geocode.get_coordinates_from_zip zip t' (geocode_memo st', svc')
        = (Ok VNone, (geocode_memo st', svc')).
Proof.
  intros Hadm Hup Hmiss Hgeo.
  rewrite (green_score_on_miss w ts zip req st Hadm Hup Hmiss).
  pose proof (geocode_failure_memoized zip (t_geocode ts) (geocode_memo st) (geocoder w)
                Hgeo) as Hmemo.
  unfold compute_green_score.
  destruct (Geocode.get_coordinates_from_zip zip (t_geocode ts)
              (geocode_memo st, geocoder w)) as [coords [geo' svc]].
  cbn [fst snd] in *. subst coords. cbn [Py.truthy negb fst snd error_free invalid_zip].
  change (error_free invalid_zip) with false. cbn [fst snd geocode_memo store].
  destruct Hmemo as [(t0 & Hentry & Hfresh) Hinv].
  split; [reflexivity|]. split; [reflexivity|]. split; [exact Hinv|].
  exists t0. split; [exact Hentry|].
  intros svc' t' Ht'. unfold Geocode.get_coordinates_from_zip.
  apply CacheTheorems.wrapper_fresh with (ts := t0); assumption.
Qed.

(** C3 (amended).  For an admitted request: a lookup that finds nothing
    is a miss, the composite is recomputed, written through and returned;
    but an exception of the store is not handled anywhere in the handler.
    An unreachable store makes the lookup raise and the request fail,
    and a failed write-through fails the request although the composite
    was computed. *)
Theorem store_errors_fail_the_request
    (w : world) (ts : instants) (zip : string) (req : request) (st : state) :
  admitted cfg req ts st ->
  (up_cache_get ts = false ->
     fst (green_score cfg pf etag_of w ts zip req st) = Raise ConnectionError) /\
  (up_cache_get ts = true -> cache_miss cfg zip ts st ->
   forall result,
     fst (compute_green_score pf w zip (t_geocode ts) (geocode_memo st)) = Ok result ->
     error_free result = true ->
     (up_cache_set ts = false ->
        fst (green_score cfg pf etag_of w ts zip req st) = Raise ConnectionError) /\
     (up_cache_set ts = true -> (0 < ZIP_CACHE_TTL_SECONDS cfg)%Z ->
        fst (green_score cfg pf etag_of w ts zip req st)
          = Ok (Response 200 (etag_of result) "MISS" (Some result)))).
Proof.
  intros Hadm. split; [apply green_score_unreachable_read, Hadm|].
  intros Hup Hmiss result Hres Hfree.
  rewrite (green_score_on_miss w ts zip req st Hadm Hup Hmiss).
  rewrite Hres, Hfree. unfold Kv.cache_set_zip, Kv.redis_setex.
  split; intros Hset.
  - rewrite Hset. reflexivity.
  - intros Httl. rewrite Hset.
    destruct (ZIP_CACHE_TTL_SECONDS cfg <=? 0)%Z eqn:E; [apply Z.leb_le in E; lia|].
    reflexivity.
Qed.

Lemma reports_error_not_succeeded v : reports_error v = true -> succeeded v = false.
Proof.
  destruct v as [| | | | | | |d]; try discriminate. cbn [reports_error succeeded].
  intros ->. reflexivity.
Qed.

Lemma collect_triples_no_scores scores :
  Forall (fun kv => Scorer._extract_score (snd kv) = Ok None) scores ->
  Scorer.collect_triples scores = Ok [].
Proof.
  induction 1 as [|[k v] rest Hv _ IH]; [reflexivity|].
  cbn [Scorer.collect_triples]. cbn [snd] in Hv. rewrite Hv. exact IH.
Qed.

(** When every adapter reports a failure the orchestrator returns a
    composite made of error entries only, with [overall_score] null and no
    top-level ["error"]. *)
Lemma orchestrate_all_failed zip coords outs :
  (forall a, exists v, outs a = Ok v /\ reports_error v = true) ->
  exists comp,
    orchestrate pf zip coords outs = Ok comp /\
    field comp "overall_score" = Some VNone /\
    field comp "error" = None /\
    error_free comp = true /\
    Py.truthy (Py.json_roundtrip comp) = true /\
    (forall a m, m ∈ metrics_of a -> is_error_entry (metric_of comp m) = true).
Proof.
  intros Hall.
  destruct (Hall AirNow) as (air & H1 & F1), (Hall LandCover) as (land & H2 & F2),
    (Hall Traffic) as (traffic & H3 & F3), (Hall Toxics) as (toxic & H4 & F4),
    (Hall GreenSpace) as (green & H5 & F5), (Hall Demographics) as (dem & H6 & F6),
    (Hall SeaLevel) as (sea & H7 & F7), (Hall Transit) as (transit & H8 & F8),
    (Hall Water) as (water & H9 & F9), (Hall FloodRisk) as (flood & H10 & F10).
  destruct (air_entry_failed air F1) as (e_air & Ha & Ea).
  destruct (land_entries_failed pf land (reports_error_not_succeeded _ F2))
    as (e_land & Hl & El1 & El2).
  destruct (traffic_entry_failed pf traffic (reports_error_not_succeeded _ F3))
    as (e_traffic & Ht & Et).
  apply reports_error_not_succeeded in F4, F5, F6, F7, F8, F9, F10.
  eassert (Hb : build_scores pf outs = Ok _).
  { apply build_scores_Ok. unfold entries_of.
    exists air, land, traffic, toxic, green, dem, sea, transit, water, flood,
      e_air, e_land, e_traffic.
    repeat split; first [eassumption|reflexivity]. }
  match type of Hb with
  | _ = Ok ?scores =>
      assert (Hs : Scorer._geometric_mean_over_scores (math_log pf) (math_exp pf) scores
                   = Ok None)
  end.
  { unfold Scorer._geometric_mean_over_scores.
    rewrite collect_triples_no_scores; [reflexivity|].
    repeat constructor; cbn [snd]; apply extract_error_entry; error_entries. }
  eexists. split; [apply orchestrate_Ok; do 2 eexists; split; [exact Hb|]; split;
                   [exact Hs|reflexivity]|].
  split; [reflexivity|]. split; [reflexivity|]. split; [reflexivity|].
  split; [reflexivity|].
  intros a m Hm. destruct a; cbn [metrics_of] in Hm;
    repeat (apply elem_of_cons in Hm as [->|Hm];
            [cbn [metric_of field Py.lookup String.eqb Ascii.eqb Bool.eqb andb
                  overall_value];
             error_entries|]);
    apply elem_of_nil in Hm; contradiction.
Qed.

(** C10.  The location resolves and every adapter reports an error:
    the composite has a null [overall_score] and no top-level ["error"],
    so the admitted request that missed the cache stores it with the full
    configured lifetime and answers it as a MISS; and as long as that
    entry is in the store and its lifetime has not elapsed, every admitted
    request for the key is answered from the store as a HIT, without
    recomputation or change to the store. *)
Theorem all_error_composite_is_cached_and_served
    (w : world) (ts : instants) (zip : string) (req : request) (st : state)
    (coords : pyval) :
  (0 < ZIP_CACHE_TTL_SECONDS cfg)%Z ->
  admitted cfg req ts st -> up_cache_get ts = true -> cache_miss cfg zip ts st ->
  up_cache_set ts = true ->
  fst (Geocode.get_coordinates_from_zip zip (t_geocode ts) (geocode_memo st, geocoder w))
    = Ok coords ->
  Py.truthy coords = true ->
  (forall a, exists v, adapters w zip coords a = Ok v /\ reports_error v = true) ->
  exists comp,
    field comp "overall_score" = Some VNone /\
    field comp "error" = None /\
    (forall a m, m ∈ metrics_of a -> is_error_entry (metric_of comp m) = true) /\
    fst (green_score cfg pf etag_of w ts zip req st)
      = Ok (Response 200 (etag_of comp) "MISS" (Some comp)) /\
    let expiry := (t_cache_set ts + inject_Z (ZIP_CACHE_TTL_SECONDS cfg))%Q in
    let key := Kv._key (ZIP_CACHE_PREFIX cfg) zip in
    store (snd (green_score cfg pf etag_of w ts zip req st)) !! key
      = Some (Py.json_roundtrip comp, expiry) /\
    forall w2 ts2 req2 st2,
      store st2 !! key = Some (Py.json_roundtrip comp, expiry) ->
      admitted cfg req2 ts2 st2 -> up_cache_get ts2 = true ->
      (t_cache_get ts2 < expiry)%Q ->
      exists status content,
        fst (green_score cfg pf etag_of w2 ts2 zip req2 st2)
          = Ok (Response status (etag_of (Py.json_roundtrip comp)) "HIT" content) /\
        (content = None \/ content = Some (Py.json_roundtrip comp)) /\
        store (snd (green_score cfg pf etag_of w2 ts2 zip req2 st2)) = store st2 /\
        geocode_memo (snd (green_score cfg pf etag_of w2 ts2 zip req2 st2))
          = geocode_memo st2.
Proof.
  intros Httl Hadm Hup Hmiss Hset Hgeo Htruthy Hall.
  destruct (orchestrate_all_failed zip coords (adapters w zip coords) Hall)
    as (comp & Ho & Hnull & Hnoerr & Hfree & Hrt & Herr).
  exists comp. split; [exact Hnull|]. split; [exact Hnoerr|]. split; [exact Herr|].
  rewrite (green_score_on_miss w ts zip req st Hadm Hup Hmiss).
  unfold compute_green_score.
  destruct (Geocode.get_coordinates_from_zip zip (t_geocode ts)
              (geocode_memo st, geocoder w)) as [r [geo' svc]].
  cbn [fst snd] in Hgeo. subst r. rewrite Htruthy. cbn [negb fst snd]. rewrite Ho, Hfree.
  unfold Kv.cache_set_zip, Kv.redis_setex. rewrite Hset.
  destruct (ZIP_CACHE_TTL_SECONDS cfg <=? 0)%Z eqn:E; [apply Z.leb_le in E; lia|].
  cbn [fst snd store]. split; [reflexivity|]. split; [apply lookup_insert_eq|].
  intros w2 ts2 req2 st2 Hentry Hadm2 Hup2 Hlive.
  unfold admitted in Hadm2. unfold green_score.
  destruct (check_admission _ _ _ _) as [r log']. cbn [fst] in Hadm2. subst r.
  unfold Kv.cache_get_zip, Kv.redis_get. rewrite Hup2, Hentry.
  apply Qltb_lt in Hlive. rewrite Hlive. cbn [mbind result_bind]. rewrite Hrt.
  destruct (decide (if_none_match req2 = Some (etag_of (Py.json_roundtrip comp))));
    do 2 eexists; cbn [fst snd store geocode_memo]; (split; [reflexivity|]); auto.
Qed.

End WithPlatform.

Lemma unresolved_location_witness :
  let st' := snd (green_score default_config Scenario.flat_platform Scenario.plain_etag
                    Scenario.empty_world Scenario.at_1000 "00000" Scenario.browser
                    Scenario.fresh) in
  fst (green_score default_config Scenario.flat_platform Scenario.plain_etag
         Scenario.empty_world Scenario.at_1000 "00000" Scenario.browser Scenario.fresh)
    = Ok (Returned invalid_zip) /\
  store st' = store Scenario.fresh /\
  (Cache.invoked (geocode_memo st') = Cache.invoked (geocode_memo Scenario.fresh) \/
   Cache.invoked (geocode_memo st')
     = Cache.invoked (geocode_memo Scenario.fresh) ++ ["00000"])%list /\
  exists t0,
    Cache.entries (geocode_memo st') !! "00000" = Some (VNone, t0) /\
    forall svc' t', (t' - t0 < inject_Z Geocode.GEOCODE_TTL)%Q ->
      Geocode.get_coordinates_from_zip "00000" t' (geocode_memo st', svc')
        = (Ok VNone, (geocode_memo st', svc')).
Proof.
  apply (unresolved_location_fails_and_is_memoized default_config Scenario.flat_platform
           Scenario.plain_etag Scenario.empty_world Scenario.at_1000 "00000"
           Scenario.browser Scenario.fresh).
  - reflexivity.
  - reflexivity.
  - reflexivity.
  - reflexivity.
Defined.

(** C5, counterexample to the claim as stated.  After a request for a
    postal code that does not resolve, the memo of the geocoder holds the
    failure; a request one hundred seconds later is refused from the
    memo although the geocoding service now knows the code. *)
Lemma resolution_failure_is_stored_in_memo :
  let first := green_score default_config Scenario.flat_platform Scenario.plain_etag
                 (World Scenario.knows_nothing (fun _ _ => Scenario.all_down))
                 Scenario.at_1000 "77002" Scenario.browser Scenario.fresh in
  let second := green_score default_config Scenario.flat_platform Scenario.plain_etag
                  Scenario.dark_world Scenario.at_1100 "77002" Scenario.browser
                  (snd first) in
  fst first = Ok (Returned invalid_zip) /\
  Cache.entries (geocode_memo (snd first)) !! "77002" = Some (VNone, 1000%Q) /\
  fst second = Ok (Returned invalid_zip) /\
  Cache.invoked (geocode_memo (snd second)) = ["77002"].
Proof. vm_compute. repeat split; reflexivity. Qed.

Lemma store_errors_witness :
  (up_cache_get Scenario.at_1000 = false ->
     fst (green_score default_config Scenario.flat_platform Scenario.plain_etag
            Scenario.dark_world Scenario.at_1000 "77002" Scenario.browser Scenario.fresh)
       = Raise ConnectionError) /\
  (up_cache_get Scenario.at_1000 = true ->
   cache_miss default_config "77002" Scenario.at_1000 Scenario.fresh ->
   forall result,
     fst (compute_green_score Scenario.flat_platform Scenario.dark_world "77002"
            (t_geocode Scenario.at_1000) (geocode_memo Scenario.fresh)) = Ok result ->
     error_free result = true ->
     (up_cache_set Scenario.at_1000 = false ->
        fst (green_score default_config Scenario.flat_platform Scenario.plain_etag
               Scenario.dark_world Scenario.at_1000 "77002" Scenario.browser Scenario.fresh)
          = Raise ConnectionError) /\
     (up_cache_set Scenario.at_1000 = true -> (0 < ZIP_CACHE_TTL_SECONDS default_config)%Z ->
        fst (green_score default_config Scenario.flat_platform Scenario.plain_etag
               Scenario.dark_world Scenario.at_1000 "77002" Scenario.browser Scenario.fresh)
          = Ok (Response 200 (Scenario.plain_etag result) "MISS" (Some result)))).
Proof.
  apply (store_errors_fail_the_request default_config Scenario.flat_platform
           Scenario.plain_etag Scenario.dark_world Scenario.at_1000 "77002"
           Scenario.browser Scenario.fresh).
  reflexivity.
Defined.

(** C3, counterexample to the claim as stated.  With the store
    unreachable the request fails with the store's exception instead of
    being recomputed; and when only the write-through fails, the request
    fails as well although the composite had been computed. *)
Lemma unreachable_store_fails_request :
  fst (green_score default_config Scenario.flat_platform Scenario.plain_etag
         Scenario.dark_world Scenario.at_1000_store_down "77002" Scenario.browser
         Scenario.fresh) = Raise ConnectionError /\
  returns (fst (compute_green_score Scenario.flat_platform Scenario.dark_world "77002"
                  1000 (geocode_memo Scenario.fresh))) = true /\
  fst (green_score default_config Scenario.flat_platform Scenario.plain_etag
         Scenario.dark_world (Instants 1000 1000 true 1000 1001 false) "77002"
         Scenario.browser Scenario.fresh) = Raise ConnectionError.
Proof. vm_compute. repeat split; reflexivity. Qed.

Lemma all_error_composite_witness :
  exists comp,
    field comp "overall_score" = Some VNone /\
    field comp "error" = None /\
    (forall a m, m ∈ metrics_of a -> is_error_entry (metric_of comp m) = true) /\
    fst (green_score default_config Scenario.flat_platform Scenario.plain_etag
           Scenario.dark_world Scenario.at_1000 "77002" Scenario.browser Scenario.fresh)
      = Ok (Response 200 (Scenario.plain_etag comp) "MISS" (Some comp)) /\
    let expiry := (t_cache_set Scenario.at_1000
                   + inject_Z (ZIP_CACHE_TTL_SECONDS default_config))%Q in
    let key := Kv._key (ZIP_CACHE_PREFIX default_config) "77002" in
    store (snd (green_score default_config Scenario.flat_platform Scenario.plain_etag
                  Scenario.dark_world Scenario.at_1000 "77002" Scenario.browser
                  Scenario.fresh)) !! key
      = Some (Py.json_roundtrip comp, expiry) /\
    forall w2 ts2 req2 st2,
      store st2 !! key = Some (Py.json_roundtrip comp, expiry) ->
      admitted default_config req2 ts2 st2 -> up_cache_get ts2 = true ->
      (t_cache_get ts2 < expiry)%Q ->
      exists status content,
        fst (green_score default_config Scenario.flat_platform Scenario.plain_etag
               w2 ts2 "77002" req2 st2)
          = Ok (Response status (Scenario.plain_etag (Py.json_roundtrip comp)) "HIT" content) /\
        (content = None \/ content = Some (Py.json_roundtrip comp)) /\
        store (snd (green_score default_config Scenario.flat_platform Scenario.plain_etag
                      w2 ts2 "77002" req2 st2)) = store st2 /\
        geocode_memo (snd (green_score default_config Scenario.flat_platform
                             Scenario.plain_etag w2 ts2 "77002" req2 st2))
          = geocode_memo st2.
Proof.
  apply (all_error_composite_is_cached_and_served default_config Scenario.flat_platform
           Scenario.plain_etag Scenario.dark_world Scenario.at_1000 "77002"
           Scenario.browser Scenario.fresh Scenario.houston).
  - reflexivity.
  - reflexivity.
  - reflexivity.
  - reflexivity.
  - reflexivity.
  - reflexivity.
  - reflexivity.
  - intros a. exists Scenario.down. split; reflexivity.
Defined.

(** The all-error composite of the dark world is served again one
    hundred seconds later, as a HIT. *)
Example dark_world_second_request_hits :
  let first := green_score default_config Scenario.flat_platform Scenario.plain_etag
                 Scenario.dark_world Scenario.at_1000 "77002" Scenario.browser
                 Scenario.fresh in
  exists etag body,
    fst (green_score default_config Scenario.flat_platform Scenario.plain_etag
           Scenario.dark_world Scenario.at_1100 "77002" Scenario.browser (snd first))
      = Ok (Response 200 etag "HIT" (Some body)) /\
    field body "overall_score" = Some VNone.
Proof. vm_compute. do 2 eexists. split; reflexivity. Qed.

End EndpointTheorems.

(* ===================================================================== *)
(** * The paced, hedged client                                            *)
(* ===================================================================== *)

Module ThrottleTheorems.
Import PyFloat PyFloatFacts Throttle.
Local Open Scope string_scope.

(** ** The pacing lock serialises the mirror calls *)

(** A worker that is past the acquisition of [_lock] and has not left
    the [with] block is the holder of the lock. *)
Lemma lock_invariant n p :
  reachable n p ->
  forall i, workers p !! i = Some Pacing \/ workers p !! i = Some Calling ->
            lock_holder p = Some i.
Proof.
  induction 1 as [|p p' Hreach IH Hstep]; intros j Hj.
  - cbn [submitted workers] in Hj.
    destruct Hj as [Hj|Hj]; apply lookup_replicate in Hj as [? _]; discriminate.
  - destruct Hstep as [ws i Hi|ws h i Hi|ws h i Hi]; cbn [workers lock_holder] in *.
    + destruct (decide (j = i)) as [->|Hne]; [reflexivity|].
      rewrite list_lookup_insert_ne in Hj by congruence.
      specialize (IH j Hj). discriminate.
    + destruct (decide (j = i)) as [->|Hne]; [apply IH; left; exact Hi|].
      rewrite list_lookup_insert_ne in Hj by congruence. apply IH, Hj.
    + destruct (decide (j = i)) as [->|Hne].
      * rewrite list_lookup_insert_eq in Hj by (eapply lookup_lt_Some; exact Hi).
        destruct Hj; discriminate.
      * rewrite list_lookup_insert_ne in Hj by congruence.
        pose proof (IH j Hj) as H1. pose proof (IH i (or_intror Hi)) as H2. congruence.
Qed.

(** C4.  In every state the worker threads of a round can reach, at
    most one of them is inside its call to a mirror: the calls of a round
    never overlap in time, they run one after another. *)
Theorem paced_calls_never_overlap (n : nat) (p : pool) :
  reachable n p -> ~ overlap p.
Proof.
  intros Hreach (i & j & Hne & Hi & Hj).
  pose proof (lock_invariant n p Hreach i (or_intror Hi)) as H1.
  pose proof (lock_invariant n p Hreach j (or_intror Hj)) as H2.
  congruence.
Qed.

(** Two mirrors: while the first worker is inside its call the second
    can only wait for the lock. *)
Lemma paced_calls_never_overlap_witness :
  ~ overlap (Pool [Calling; Queued] (Some 0%nat)).
Proof.
  apply (paced_calls_never_overlap 2).
  eapply reach_step; [eapply reach_step; [apply reach_start|]|].
  - exact (step_acquire [Queued; Queued] 0 eq_refl).
  - exact (step_call [Pacing; Queued] (Some 0%nat) 0 eq_refl).
Defined.


(** ** The backoff values can always be slept *)

Lemma sleep_cap : sleep BACKOFF_CAP = Ok tt.
Proof. vm_compute. reflexivity. Qed.

Lemma cap_not_below_cap : flt BACKOFF_CAP BACKOFF_CAP = false.
Proof. vm_compute. reflexivity. Qed.

(** A positive finite double that is not above [12.0] is far below the
    longest duration [time.sleep] accepts. *)
Lemma sleep_small m e :
  flt BACKOFF_CAP (S754_finite false m e) = false ->
  sleep (S754_finite false m e) = Ok tt.
Proof.
  unfold sleep, flt, SFltb, BACKOFF_CAP, MAX_SLEEP, of_int, binary_normalize.
  set (cap := binary_round prec emax false 12 0).
  vm_compute in cap. subst cap. cbn [SFcompare].
  destruct (Z.compare (-49) e) eqn:Hc.
  - apply Z.compare_eq in Hc. subst e. intros _. reflexivity.
  - discriminate.
  - intros _. apply Z.compare_gt_iff in Hc.
    destruct (Z.compare (-19) e) eqn:Hc'; try reflexivity.
    + apply Z.compare_eq in Hc'. lia.
    + assert (-19 < e) by exact Hc'. lia.
Qed.

Lemma next_backoff_capped b : flt BACKOFF_CAP (next_backoff b) = false.
Proof.
  unfold next_backoff, min2.
  destruct (flt BACKOFF_CAP (fmul b BACKOFF_FACTOR)) eqn:E; [apply cap_not_below_cap|exact E].
Qed.

Lemma backoff_factor_value :
  BACKOFF_FACTOR = S754_finite false 8106479329266893 (-52).
Proof. vm_compute. reflexivity. Qed.

Lemma sleep_next_backoff b : sleep b = Ok tt -> sleep (next_backoff b) = Ok tt.
Proof.
  intros Hb. pose proof (next_backoff_capped b) as Hcap.
  unfold next_backoff, min2 in *. rewrite backoff_factor_value in *.
  destruct (flt BACKOFF_CAP (fmul b (S754_finite false 8106479329266893 (-52)))) eqn:E;
    [apply sleep_cap|].
  destruct b as [s|s| |s m e]; try discriminate.
  - destruct s; reflexivity.
  - destruct s; [unfold sleep in Hb; destruct (flt _ _); discriminate|].
    pose proof (fmul_nonneg_finite false m e 8106479329266893 (-52)) as Hshape.
    destruct (fmul (S754_finite false m e) (S754_finite false 8106479329266893 (-52)))
      as [s'|s'| |s' m' e'] eqn:Hx; try contradiction.
    + reflexivity.
    + subst s'. discriminate.
    + destruct Hshape as [-> _]. apply sleep_small. exact E.
Qed.

(** ** The retry loop *)

Section WithUpstream.
Context {R : Type}.
Variable exception_class : overpy_exception.
Variable upstream : nat -> string -> @mirror_outcome R.
Variable completion : nat -> list string -> list string.

Lemma first_success_none (outs : list (@mirror_outcome R)) :
  first_success outs = None <-> Forall (fun o => forall r, o <> Success r) outs.
Proof.
  induction outs as [|o outs IH]; cbn [first_success].
  - split; [constructor|reflexivity].
  - destruct o as [r|e|].
    + split; [discriminate|]. intros H. inversion H as [|? ? Ho _]; subst.
      exfalso. apply (Ho r). reflexivity.
    + rewrite IH. split; intros H;
        [constructor; [discriminate|exact H]|inversion H; assumption].
    + rewrite IH. split; intros H;
        [constructor; [discriminate|exact H]|inversion H; assumption].
Qed.

(** A round fails exactly when every future completed with an
    exception. *)
Lemma run_round_all_failed (outs : list (@mirror_outcome R)) :
  run_round outs = AllFailed <-> Forall (fun o => exists e, o = Failure e) outs.
Proof.
  unfold run_round. split.
  - destruct (first_success outs) eqn:Hf; [discriminate|].
    destruct (existsb is_late outs) eqn:Hl; [discriminate|]. intros _.
    apply first_success_none in Hf.
    apply Forall_forall. intros o Ho.
    rewrite Forall_forall in Hf. specialize (Hf o Ho).
    destruct o as [r|e|]; [exfalso; apply (Hf r); reflexivity|eauto|].
    exfalso. apply not_true_iff_false in Hl. apply Hl.
    apply existsb_exists. exists Late. split; [apply list_elem_of_In, Ho|reflexivity].
  - intros Hall.
    assert (Hf : first_success outs = None).
    { apply first_success_none. eapply Forall_impl; [exact Hall|].
      intros o [e ->] r. discriminate. }
    rewrite Hf.
    assert (Hl : existsb is_late outs = false).
    { apply not_true_iff_false. intros Hl.
      apply existsb_exists in Hl as (o & Ho & Hlate).
      rewrite Forall_forall in Hall. apply list_elem_of_In in Ho.
      destruct (Hall o Ho) as [e ->]. discriminate. }
    rewrite Hl. reflexivity.
Qed.

Lemma round_fails_iff mirrors a :
  completion a mirrors ≡ₚ mirrors ->
  round_fails upstream completion mirrors a <->
  forall url, url ∈ mirrors -> exists e, upstream a url = Failure e.
Proof.
  intros Hperm. unfold round_fails, outcomes_of.
  rewrite run_round_all_failed, Forall_map, Forall_forall.
  split; intros H url Hurl; apply H.
  - rewrite Hperm. exact Hurl.
  - rewrite <- Hperm. exact Hurl.
Qed.

(** With every round failing, the loop runs all its rounds, sleeps after
    each, and ends with the exhaustion error. *)
Lemma attempts_all_failed mirrors n : forall attempt backoff trace,
  mirrors <> [] -> sleep backoff = Ok tt ->
  (forall a, (attempt <= a < attempt + n)%nat ->
             round_fails upstream completion mirrors a) ->
  attempts exception_class upstream completion mirrors n attempt backoff trace
    = (Raise (exhausted exception_class),
       (trace ++ failed_rounds mirrors n attempt backoff)%list).
Proof.
  induction n as [|n IH]; intros attempt backoff trace Hne Hsleep Hfail;
    cbn [attempts failed_rounds].
  - rewrite app_nil_r. reflexivity.
  - destruct mirrors as [|u us] eqn:Hm; [congruence|]. rewrite <- Hm in *.
    rewrite (Hfail attempt) by lia. rewrite Hsleep.
    rewrite IH;
      [|exact Hne|apply sleep_next_backoff, Hsleep|intros a Ha; apply Hfail; lia].
    rewrite <- !app_assoc. reflexivity.
Qed.


(** After [k] rounds in which every mirror failed the loop is where it
    started, [k] attempts later, with the backoff advanced [k] times. *)
Lemma attempts_skip_failed mirrors k : forall n attempt backoff trace,
  mirrors <> [] -> sleep backoff = Ok tt ->
  (forall a, (attempt <= a < attempt + k)%nat ->
             round_fails upstream completion mirrors a) ->
  attempts exception_class upstream completion mirrors (k + n) attempt backoff trace
    = attempts exception_class upstream completion mirrors n (attempt + k)
        (Nat.iter k next_backoff backoff)
        (trace ++ failed_rounds mirrors k attempt backoff)%list.
Proof.
  induction k as [|k IH]; intros n attempt backoff trace Hne Hsleep Hfail.
  - cbn [Nat.add Nat.iter failed_rounds]. rewrite app_nil_r, Nat.add_0_r. reflexivity.
  - cbn [Nat.add attempts failed_rounds].
    destruct mirrors as [|u us] eqn:Hm; [congruence|]. rewrite <- Hm in *.
    rewrite (Hfail attempt) by lia. rewrite Hsleep.
    rewrite IH;
      [|exact Hne|apply sleep_next_backoff, Hsleep|intros a Ha; apply Hfail; lia].
    rewrite <- Nat.iter_succ_r, Nat.add_succ_r, <- !app_assoc. reflexivity.
Qed.

(** A round in which no call ends with a result and the call to one
    selected mirror is still pending at the deadline is a round that
    times out. *)
Lemma run_round_timed_out mirrors a slow :
  completion a mirrors ≡ₚ mirrors ->
  (forall url r, url ∈ mirrors -> upstream a url <> Success r) ->
  slow ∈ mirrors -> upstream a slow = Late ->
  run_round (outcomes_of upstream completion a mirrors) = TimedOut.
Proof.
  intros Hperm Hnone Hin Hlate. unfold run_round, outcomes_of.
  assert (Hf : first_success (map (upstream a) (completion a mirrors)) = None).
  { apply first_success_none. rewrite Forall_map. apply Forall_forall.
    intros url Hurl r. apply Hnone. rewrite <- Hperm. exact Hurl. }
  rewrite Hf.
  assert (Hl : existsb is_late (map (upstream a) (completion a mirrors)) = true).
  { apply existsb_exists. exists Late. split; [|reflexivity].
    apply in_map_iff. exists slow. split; [exact Hlate|].
    apply list_elem_of_In. rewrite Hperm. exact Hin. }
  rewrite Hl. reflexivity.
Qed.

End WithUpstream.

Lemma queries_app t1 t2 : queries (t1 ++ t2) = (queries t1 ++ queries t2)%list.
Proof. apply omap_app. Qed.

Lemma sleeps_app t1 t2 : sleeps (t1 ++ t2) = (sleeps t1 ++ sleeps t2)%list.
Proof. apply omap_app. Qed.

Lemma sleeps_of_queries a mirrors : sleeps (map (Query a) mirrors) = [].
Proof. induction mirrors as [|u us IH]; [reflexivity|exact IH]. Qed.

Lemma queries_of_queries a mirrors :
  queries (map (Query a) mirrors) = map (pair a) mirrors.
Proof.
  induction mirrors as [|u us IH]; [reflexivity|].
  cbn. f_equal. exact IH.
Qed.

Lemma sleeps_failed_rounds mirrors n : forall attempt backoff,
  sleeps (failed_rounds mirrors n attempt backoff) = backoff_schedule backoff n.
Proof.
  induction n as [|n IH]; intros attempt backoff; cbn [failed_rounds backoff_schedule];
    [reflexivity|].
  unfold sleeps in *. rewrite !omap_app. fold (sleeps (map (Query attempt) mirrors)).
  rewrite sleeps_of_queries, IH. reflexivity.
Qed.

Lemma queries_failed_rounds mirrors n : forall attempt backoff,
  queries (failed_rounds mirrors n attempt backoff)
    = flat_map (fun a => map (pair a) mirrors) (seq attempt n).
Proof.
  induction n as [|n IH]; intros attempt backoff; cbn [failed_rounds flat_map seq];
    [reflexivity|].
  unfold queries in *. rewrite !omap_app. fold (queries (map (Query attempt) mirrors)).
  rewrite queries_of_queries, IH. reflexivity.
Qed.

Lemma backoff_schedule_capped n : forall b,
  flt BACKOFF_CAP b = false ->
  Forall (fun d => flt BACKOFF_CAP d = false) (backoff_schedule b n).
Proof.
  induction n as [|n IH]; intros b Hb; cbn [backoff_schedule]; constructor; [exact Hb|].
  apply IH. apply (next_backoff_capped b).
Qed.

(** C6 (amended).  When every round fails, the client sleeps after each
    round (the last one included) for exactly the current backoff value:
    the first sleep is the configured base, each later one is the previous
    value times 1.8 capped at 12.0 seconds.  Nothing is added to these
    values: there is no jitter. *)
Theorem backoff_sleeps_follow_schedule_without_jitter {R : Type}
    (exception_class : overpy_exception)
    (upstream : nat -> string -> @mirror_outcome R)
    (completion : nat -> list string -> list string) (cfg : config) :
  select_mirrors cfg <> [] ->
  sleep (_BACKOFF_START cfg) = Ok tt ->
  (forall a, (1 <= a < 1 + Z.to_nat (_MAX_RETRIES cfg))%nat ->
             round_fails upstream completion (select_mirrors cfg) a) ->
  let slept :=
    sleeps (snd (hedged_paced_query exception_class upstream completion cfg)) in
  slept = backoff_schedule (_BACKOFF_START cfg) (Z.to_nat (_MAX_RETRIES cfg)) /\
  Forall (fun d => flt BACKOFF_CAP d = false) (tail slept).
Proof.
  intros Hne Hsleep Hfail slept. subst slept. unfold hedged_paced_query.
  rewrite attempts_all_failed by assumption. cbn [snd app].
  rewrite sleeps_failed_rounds. split; [reflexivity|].
  destruct (Z.to_nat (_MAX_RETRIES cfg)) as [|n]; cbn [backoff_schedule tail]; [constructor|].
  apply backoff_schedule_capped, next_backoff_capped.
Qed.

Lemma backoff_sleeps_witness :
  let slept :=
    sleeps (snd (hedged_paced_query carries_message both_down in_order default_config)) in
  slept = backoff_schedule (_BACKOFF_START default_config)
            (Z.to_nat (_MAX_RETRIES default_config)) /\
  Forall (fun d => flt BACKOFF_CAP d = false) (tail slept).
Proof.
  apply (backoff_sleeps_follow_schedule_without_jitter
           carries_message both_down in_order default_config).
  - discriminate.
  - vm_compute. reflexivity.
  - intros a _. vm_compute. reflexivity.
Defined.

(** C6, counterexample to the claim as stated.  With the default
    configuration and both mirrors down, the four sleeps are exactly
    1.5 s and its successive products by 1.8: the durations are the bare
    backoff values, with no random component. *)
Lemma default_sleeps_are_bare_backoff :
  let b0 := dec 15 10 in
  let b1 := fmul b0 (dec 18 10) in
  let b2 := fmul b1 (dec 18 10) in
  let b3 := fmul b2 (dec 18 10) in
  sleeps (snd (hedged_paced_query carries_message both_down in_order default_config))
    = [b0; b1; b2; b3].
Proof. vm_compute. reflexivity. Qed.

(** C7.  A mirror call that is still pending when [as_completed] gives
    up is a failure the loop does not retry.  Let no call of the rounds
    [1 .. k+1] end with a result: in the first [k] rounds every call ends
    with an exception, and in round [k+1] the call to one selected mirror
    has not ended at the deadline.  Then the client leaves with
    [TimeoutError] in round [k+1], whatever [_MAX_RETRIES] says: it has
    queried the mirrors in [k+1] rounds only, has slept [k] times and
    never reaches the statement that raises the exhaustion error. *)
Theorem pending_call_ends_the_retries {R : Type}
    (exception_class : overpy_exception)
    (upstream : nat -> string -> @mirror_outcome R)
    (completion : nat -> list string -> list string) (cfg : config)
    (k : nat) (slow : string) :
  select_mirrors cfg <> [] ->
  sleep (_BACKOFF_START cfg) = Ok tt ->
  (k < Z.to_nat (_MAX_RETRIES cfg))%nat ->
  (forall a urls, completion a urls ≡ₚ urls) ->
  (forall a url, (1 <= a < 1 + k)%nat -> url ∈ select_mirrors cfg ->
                 exists e, upstream a url = Failure e) ->
  (forall url r, url ∈ select_mirrors cfg -> upstream (1 + k)%nat url <> Success r) ->
  slow ∈ select_mirrors cfg ->
  upstream (1 + k)%nat slow = Late ->
  let mirrors := select_mirrors cfg in
  let run := hedged_paced_query exception_class upstream completion cfg in
  fst run = Raise TimeoutError /\
  queries (snd run) = flat_map (fun a => map (pair a) mirrors) (seq 1 (k + 1)) /\
  sleeps (snd run) = backoff_schedule (_BACKOFF_START cfg) k.
Proof.
  intros Hne Hsleep Hk Hperm Hfail Hnone Hin Hlate mirrors run.
  subst run mirrors. unfold hedged_paced_query.
  replace (Z.to_nat (_MAX_RETRIES cfg))
    with (k + S (Z.to_nat (_MAX_RETRIES cfg) - S k))%nat by lia.
  rewrite attempts_skip_failed;
    [|exact Hne|exact Hsleep
     |intros a Ha;
      apply (proj2 (round_fails_iff upstream completion _ a (Hperm a _)));
      intros url Hurl; apply Hfail; assumption].
  cbn [attempts app].
  destruct (select_mirrors cfg) as [|u us] eqn:Hm; [congruence|]. rewrite <- Hm in *.
  rewrite (run_round_timed_out upstream completion (select_mirrors cfg) (1 + k) slow
             (Hperm _ _) Hnone Hin Hlate).
  cbn [fst snd]. split; [reflexivity|].
  rewrite sleeps_app, queries_app.
  rewrite sleeps_failed_rounds, sleeps_of_queries, queries_failed_rounds,
    queries_of_queries, app_nil_r.
  split; [|reflexivity].
  rewrite seq_app, flat_map_app. cbn [seq flat_map]. rewrite app_nil_r. reflexivity.
Qed.

(** The default configuration, two mirrors that fail slowly: four rounds
    are configured, the client leaves in the first. *)
Lemma pending_call_ends_the_retries_witness :
  let mirrors := select_mirrors default_config in
  let run := hedged_paced_query carries_message slow_failures in_order default_config in
  fst run = Raise TimeoutError /\
  queries (snd run) = flat_map (fun a => map (pair a) mirrors) (seq 1 (0 + 1)) /\
  sleeps (snd run) = backoff_schedule (_BACKOFF_START default_config) 0.
Proof.
  apply (pending_call_ends_the_retries carries_message slow_failures in_order
           default_config 0 "https://overpass-api.nextzen.org/api/interpreter").
  - discriminate.
  - vm_compute. reflexivity.
  - vm_compute. lia.
  - intros a urls. reflexivity.
  - intros a url Ha. lia.
  - intros url r Hurl. unfold slow_failures.
    destruct (String.eqb url _); discriminate.
  - vm_compute. right. left.
  - reflexivity.
Defined.

(** With the default configuration and both mirrors down the client
    makes four rounds of two calls and gives up. *)
Example default_run_exhausts :
  let run := hedged_paced_query carries_message both_down in_order default_config in
  fst run = Raise (OverpassTooManyRequests "Overpass mirrors failed after retries") /\
  length (queries (snd run)) = 8%nat.
Proof. vm_compute. split; reflexivity. Qed.

(** The same run with an exception class that takes no argument: the last
    statement ends with the [TypeError] of the call. *)
Example default_run_with_bare_class :
  fst (hedged_paced_query rejects_argument both_down in_order default_config)
  = Raise TypeError.
Proof. vm_compute. reflexivity. Qed.

(** One healthy mirror out of two is enough on the first round. *)
Example one_healthy_mirror_succeeds :
  hedged_paced_query carries_message
    (fun _ url => if String.eqb url "https://overpass-api.nextzen.org/api/interpreter"
                  then Success tt else Failure ConnectionError)
    in_order default_config
  = (Ok tt, [Query 1 "https://overpass.kumi.systems/api/interpreter";
             Query 1 "https://overpass-api.nextzen.org/api/interpreter"]).
Proof. vm_compute. reflexivity. Qed.

End ThrottleTheorems.


(* ===================================================================== *)
(** * More about the TTL memoizer                                         *)
(* ===================================================================== *)

Module CacheMore.
Import Cache CacheRuns CacheTheorems.

Section TtlCache.
Context {K V W : Type} `{Countable K}.
Variable seconds : Z.
Variable fn : K -> W -> result V * W.







End TtlCache.




End CacheMore.

(* ===================================================================== *)
(** * More about the distributed result cache                             *)
(* ===================================================================== *)

Module KvMore.
Import Kv.




End KvMore.

(* ===================================================================== *)
(** * More about admission control                                        *)
(* ===================================================================== *)

Module AdmissionMore.
Import Admission AdmissionRuns AdmissionTheorems.
Local Open Scope string_scope.
Local Open Scope list_scope.










End AdmissionMore.

(* ===================================================================== *)
(** * More about the orchestrator and the endpoint                        *)
(* ===================================================================== *)

Module OrchestratorMore.
Import Orchestrator OrchestratorFacts OrchestratorTheorems Scorer.
Local Open Scope string_scope.

Section WithPlatform.
Variable pf : platform.








End WithPlatform.


End OrchestratorMore.

Module EndpointMore.
Import Admission Orchestrator Endpoint OrchestratorFacts OrchestratorTheorems.
Import EndpointTheorems.
Local Open Scope string_scope.

Section WithPlatform.
Variable cfg : config.
Variable pf : platform.
Variable etag_of : pyval -> string.




End WithPlatform.




End EndpointMore.

(* ===================================================================== *)
(** * More about the paced, hedged client                                 *)
(* ===================================================================== *)

Module ThrottleMore.
Import PyFloat PyFloatFacts Throttle ThrottleTheorems.
Local Open Scope string_scope.
Local Open Scope list_scope.


Section WithUpstream.
Context {R : Type}.
Variable exception_class : overpy_exception.
Variable upstream : nat -> string -> @mirror_outcome R.
Variable completion : nat -> list string -> list string.






End WithUpstream.




End ThrottleMore.

(* ===================================================================== *)
(** * The body of the geocoder                                            *)
(* ===================================================================== *)

Module GeocodeBodyTheorems.
Import PyMore GeocodeBody.
Local Open Scope string_scope.



Section WithPlatform.
Variable pf : platform.
Hypothesis float_of_str_raises :
  forall s e, float_of_str pf s = Raise e -> e = ValueError.




End WithPlatform.


(** A coordinate that is an integer of 401 digits makes the geocoder
    raise. *)
Example huge_coordinate_raises :
  body Scenario.flat_platform
    (Json (VList [VDict [("lat", VInt (10 ^ 400)); ("lon", VInt 0)]]))
  = Raise OverflowError.
Proof. vm_compute. reflexivity. Qed.

End GeocodeBodyTheorems.

(* ===================================================================== *)
(** * The single-metric endpoints                                         *)
(* ===================================================================== *)

Module DetailsTheorems.
Import PyMore Orchestrator Details.
Local Open Scope string_scope.





(** The transit endpoint of the dark world: the adapter's error is the
    answer, next to the postal code and its coordinates. *)
Example transit_endpoint_passes_error_on :
  fst (transit_access Scenario.dark_world "77002" 1000 Cache.empty_memo)
  = Ok (VDict [("zip", VStr "77002"); ("coordinates", Scenario.houston);
               ("error", VStr "upstream unavailable")]).
Proof. vm_compute. reflexivity. Qed.

End DetailsTheorems.

(* ===================================================================== *)
(** * The Overpass adapters                                               *)
(* ===================================================================== *)

Module OverpassTheorems.
Import PyFloat PyMore Overpass.
Local Open Scope string_scope.
Local Open Scope Z_scope.



Section WithPlatform.
Variable pf : platform.



End WithPlatform.



(** The second endpoint answers: its empty list gives a score of 0. *)
Example second_endpoint_gives_zero :
  get_transit_access_score Scenario.flat_platform Cases.second_endpoint_answers 1500
  = Ok (VDict [("score", VInt 0); ("stops_count", VInt 0);
               ("source", VStr "OSM via Overpass API")]).
Proof. vm_compute. reflexivity. Qed.

End OverpassTheorems.

(* ===================================================================== *)
(** * Sea-level and flood adapters                                        *)
(* ===================================================================== *)

Module SeaLevelTheorems.
Import PyFloat PyMore Overpass SeaLevel.
Local Open Scope string_scope.
Local Open Scope Z_scope.




End SeaLevelTheorems.

Module FloodRiskTheorems.
Import PyFloat PyMore Overpass FloodRisk.
Local Open Scope string_scope.
Local Open Scope Z_scope.

Section WithPlatform.
Variable pf : platform.
Variable haversine : spec_float -> spec_float -> spec_float -> spec_float -> result spec_float.
Variable str_of_exc : exc -> string.


End WithPlatform.


End FloodRiskTheorems.

(* ===================================================================== *)
(** * The score of an AQI                                                 *)
(* ===================================================================== *)

Module AirNowTheorems.
Import PyFloat AirNow.
Local Open Scope Z_scope.






(** The ends of the segments, and what is not a number. *)
Example aqi_breakpoints :
  map (fun n => _compute_score_from_aqi Scenario.flat_platform (VInt n))
      [0; 50; 100; 150; 200; 300; 500; 501]
  = map Ok [100; 85; 70; 50; 30; 10; 0; 0] /\
  _compute_score_from_aqi Scenario.flat_platform VNone = Ok 0 /\
  _compute_score_from_aqi Scenario.flat_platform (VFloat S754_nan) = Ok 0.
Proof. vm_compute. repeat split; reflexivity. Qed.

End AirNowTheorems.

(* ===================================================================== *)
(** * Score normalisation                                                 *)
(* ===================================================================== *)

Module NormalizeTheorems.
Import PyFloat Normalize.
Local Open Scope Z_scope.



Section WithPlatform.
Variable pf : platform.


End WithPlatform.


End NormalizeTheorems.

(* ===================================================================== *)
(** * Re-warming expired keys                                             *)
(* ===================================================================== *)

Module RewarmTheorems.
Import Orchestrator Endpoint Rewarm.
Local Open Scope string_scope.



Section WithPlatform.
Variable cfg : config.
Variable pf : platform.


End WithPlatform.


(** The key of 77002 expires in the dark world: its composite is written
    again. *)
Example dark_world_key_rewarmed :
  let st := on_expired default_config Scenario.flat_platform Scenario.dark_world
              (VStr "greenscore:77002") 5000 5001 true (Cache.empty_memo, ∅) in
  fst st = Ok tt /\
  snd (snd st) !! "greenscore:77002"
    = Some (Py.json_roundtrip Cases.dark_composite, (5001 + inject_Z (30 * 24 * 3600))%Q).
Proof. vm_compute. split; reflexivity. Qed.

End RewarmTheorems.
